(** * Home Assistant core: the DHT sensor platform and the TP-Link component

    A shallow embedding of

      - [homeassistant/components/dht/sensor.py]       (module [DHT]),
      - [homeassistant/components/tplink/__init__.py]  (module [TPLink]),

    followed by the properties of the polling, throttling, error handling
    and set-up / unload code that the specification states.

    Conventions of the embedding.

      - A Python [float] is the rational number ([Q]) it stands for: the
        comparisons and the control flow are those of the source; the sum of
        two floats is the double nearest to their exact sum ([Py.float_add]);
        [round] is exact decimal rounding; NaN and infinities do not exist.
      - A [dict] is a [gmap]; indexing a missing key is [KeyError].
      - A call that can raise returns a [result]; the objects a method
        mutates are passed in and returned.
      - What the code asks of the outside world (the sensor library, the
        clock, the host's forward-unload) is an argument of the function,
        and what it does to the outside world is a list of events. *)

From Stdlib Require Import QArith Qround Ascii String.
From Stdlib Require Import Qabs.
From stdpp Require Import base option list gmap strings.

Local Open Scope Z_scope.

(** ** Python values shared by the two modules *)

Module Py.

(** The classes of [Exception] that the modelled code can meet. *)
Inductive exn : Type :=
| RuntimeError
| KeyError
| AttributeError
| ValueError
| OSError.

(** [isinstance(e, RuntimeError)], the test of an [except RuntimeError:]
    clause; every [exn] is an instance of [Exception]. *)
Definition is_RuntimeError (e : exn) : bool :=
  match e with
  | RuntimeError => true
  | _ => false
  end.

(** Outcome of a call: a returned value or a raised exception. *)
Inductive result (A : Type) : Type :=
| Return (a : A)
| Raise (e : exn).
Arguments Return {A} a.
Arguments Raise {A} e.

Definition bind {A B} (r : result A) (k : A -> result B) : result B :=
  match r with
  | Return a => k a
  | Raise e => Raise e
  end.

Definition returned {A} (r : result A) : bool :=
  match r with
  | Return _ => true
  | Raise _ => false
  end.

(** [d[k]] on a dict. *)
Definition getitem {V} (d : gmap string V) (k : string) : result V :=
  match d !! k with
  | Some v => Return v
  | None => Raise KeyError
  end.

(** [k in d]. *)
Definition contains {V} (d : gmap string V) (k : string) : bool :=
  bool_decide (is_Some (d !! k)).

(** Truth value of a float: zero is falsy. *)
Definition truthy_float (x : Q) : bool := negb (Qeq_bool x 0).

(** Truth value of an optional float ([None] is falsy). *)
Definition truthy (x : option Q) : bool :=
  match x with
  | Some q => truthy_float q
  | None => false
  end.

(** Nearest integer, ties to the even one. *)
Definition round_half_even (x : Q) : Z :=
  let f := Qfloor x in
  match Qcompare (x - inject_Z f) (1 # 2) with
  | Lt => f
  | Gt => f + 1
  | Eq => if Z.even f then f else f + 1
  end.

(** [round(x, ndigits)] for [ndigits >= 0]. *)
Definition round (x : Q) (ndigits : N) : Q :=
  let scale := inject_Z (10 ^ Z.of_N ndigits) in
  Qred (inject_Z (round_half_even (x * scale)) / scale).

(** The exponent [e] of a positive number [x]: [2 ^ e <= x < 2 ^ (e + 1)]. *)
Definition floor_log2 (x : Q) : Z :=
  let k := Z.log2 (Qnum x) - Z.log2 (Zpos (Qden x)) in
  if Qle_bool (2 ^ k)%Q x then k else k - 1.

(** The double (IEEE 754 binary64) nearest to [x], ties to the even
    significand: 53 significant bits, and below [2 ^ -1022] the fixed
    spacing [2 ^ -1074] of the subnormal numbers. A result beyond the largest
    double would be an infinity, which a rational does not stand for. *)
Definition to_float (x : Q) : Q :=
  if Qeq_bool x 0 then 0%Q
  else
    let ulp := (2 ^ (Z.max (floor_log2 (Qabs x)) (-1022) - 52))%Q in
    Qred (inject_Z (round_half_even (x / ulp)) * ulp).

(** [x + y] on floats: the exact sum, rounded to the nearest double. *)
Definition float_add (x y : Q) : Q := to_float (x + y).

(** [a <= x < b] and [a <= x <= b] on floats. *)
Definition le_lt (a x b : Q) : bool := Qle_bool a x && negb (Qle_bool b x).
Definition le_le (a x b : Q) : bool := Qle_bool a x && Qle_bool x b.

End Py.

(** [x ← r; k] runs [r] and, when it returns, runs [k]; a raised exception
    propagates. *)
#[export] Instance result_ret : MRet Py.result := @Py.Return.
#[export] Instance result_bind : MBind Py.result := fun A B k r => Py.bind r k.

(** ** homeassistant/components/dht/sensor.py *)

Module DHT.
Import Py.

Definition DEFAULT_NAME : string := "DHT Sensor".

(** A [datetime] is a number of microseconds and a [timedelta] a difference
    of two; [MIN_TIME_BETWEEN_UPDATES = timedelta(seconds=30)]. *)
Definition timedelta_seconds (s : Z) : Z := s * 1000000.
Definition MIN_TIME_BETWEEN_UPDATES : Z := timedelta_seconds 30.

Definition SENSOR_TEMPERATURE : string := "temperature".
Definition SENSOR_HUMIDITY : string := "humidity".

(** Modelled from the spec: the unit constants [TEMP_FAHRENHEIT] and
    [PERCENTAGE] of [homeassistant.const] are not under src/. They are
    compared with [==] only, so they are the constructors of an enumeration;
    [TEMP_CELSIUS] is the other temperature unit a host can be configured
    with. *)
Inductive unit_of_measurement : Type :=
| TEMP_CELSIUS
| TEMP_FAHRENHEIT
| PERCENTAGE.

#[export] Instance unit_of_measurement_eq_dec : EqDecision unit_of_measurement.
Proof. solve_decision. Defined.

(** The module-level dict [SENSOR_TYPES]: sensor type to [name, unit]. The
    unit of the temperature entry is [None] until [setup_platform] stores
    the host's temperature unit there. *)
Definition SENSOR_TYPES_with (temperature_unit : option unit_of_measurement)
  : gmap string (string * option unit_of_measurement) :=
  <[SENSOR_HUMIDITY := ("Humidity"%string, Some PERCENTAGE)]>
    (<[SENSOR_TEMPERATURE := ("Temperature"%string, temperature_unit)]> ∅).

Definition SENSOR_TYPES : gmap string (string * option unit_of_measurement) :=
  SENSOR_TYPES_with None.

(** *** validate_pin_input *)

(** ASCII white space, as [int()] strips it: tab, line feed, vertical tab,
    form feed, carriage return and space. *)
Definition is_space (c : ascii) : bool :=
  let n := nat_of_ascii c in
  ((9 <=? n) && (n <=? 13) || (n =? 32))%nat.

Definition is_digit (c : ascii) : bool :=
  let n := nat_of_ascii c in ((48 <=? n) && (n <=? 57))%nat.

Fixpoint lstrip (s : string) : string :=
  match s with
  | String c s' => if is_space c then lstrip s' else s
  | EmptyString => s
  end.

Definition strip (s : string) : string :=
  String.rev (lstrip (String.rev (lstrip s))).

(** Decimal digits with single underscores between them. *)
Fixpoint int_digits (after_digit : bool) (s : string) : bool :=
  match s with
  | EmptyString => after_digit
  | String c s' =>
    if is_digit c then int_digits true s'
    else if Ascii.eqb c "_"%char then after_digit && int_digits false s'
    else false
  end.

(** The number of digits in [s], and the largest number of digits that
    [int()] converts ([sys.int_info.default_max_str_digits]); the sign, the
    underscores and the stripped white space do not count. *)
Fixpoint count_digits (s : string) : nat :=
  match s with
  | EmptyString => 0
  | String c s' => if is_digit c then S (count_digits s') else count_digits s'
  end.

Definition int_max_str_digits : nat := 4300.

(** A well-formed literal of at most [int_max_str_digits] digits. *)
Definition int_literal (s : string) : bool :=
  int_digits false s && (count_digits s <=? int_max_str_digits)%nat.

(** Whether [int(value)] returns for an ASCII string [value]; it raises
    [ValueError] otherwise. *)
Definition int_parses (value : string) : bool :=
  match strip value with
  | String c s' =>
    if Ascii.eqb c "+"%char || Ascii.eqb c "-"%char then int_literal s'
    else int_literal (String c s')
  | EmptyString => false
  end.

Definition upper_ascii (c : ascii) : ascii :=
  let n := nat_of_ascii c in
  if ((97 <=? n) && (n <=? 122))%nat then ascii_of_nat (n - 32) else c.

Fixpoint upper (s : string) : string :=
  match s with
  | String c s' => String (upper_ascii c) (upper s')
  | EmptyString => EmptyString
  end.

Definition validate_pin_input (value : string) : string :=
  if int_parses value then ("D" ++ value)%string else upper value.

(** *** PLATFORM_SCHEMA *)

(** A validated configuration, [config[CONF_...]]. *)
Record Config : Type := {
  CONF_SENSOR : string;
  CONF_PIN : string;
  CONF_MONITORED_CONDITIONS : list string;
  CONF_NAME : string;
  CONF_TEMPERATURE_OFFSET : Q;
  CONF_HUMIDITY_OFFSET : Q;
}.

(** A configuration as written by the user: a key may be missing, and
    the monitored conditions may be one string instead of a list. *)
Inductive one_or_many : Type :=
| One (s : string)
| Many (l : list string).

Record RawConfig : Type := {
  raw_sensor : option string;
  raw_pin : option string;
  raw_monitored_conditions : option one_or_many;
  raw_name : option string;
  raw_temperature_offset : option Q;
  raw_humidity_offset : option Q;
}.

(** Modelled from the spec: the validators of [voluptuous] and of
    [homeassistant.helpers.config_validation] are not under src/. On values
    that are already strings and numbers: [cv.string] accepts a string,
    [cv.ensure_list] wraps a single value in a list, [vol.In(d)] accepts the
    keys of [d], [vol.Range(min, max)] accepts the closed interval, a
    [vol.Required] key must be present and a [vol.Optional] one takes its
    default. [None] is [vol.Invalid]. *)
Definition ensure_list (v : one_or_many) : list string :=
  match v with
  | One s => [s]
  | Many l => l
  end.

Definition vol_In {V} (d : gmap string V) (l : list string) : option (list string) :=
  if forallb (contains d) l then Some l else None.

Definition vol_Range (lo hi x : Q) : option Q :=
  if le_le lo x hi then Some x else None.

Definition PLATFORM_SCHEMA
    (types : gmap string (string * option unit_of_measurement))
    (raw : RawConfig) : option Config :=
  sensor ← raw_sensor raw;
  pin ← validate_pin_input <$> raw_pin raw;
  conditions ← vol_In types (ensure_list (default (Many []) (raw_monitored_conditions raw)));
  temperature_offset ← vol_Range (-100) 100 (default 0%Q (raw_temperature_offset raw));
  humidity_offset ← vol_Range (-100) 100 (default 0%Q (raw_humidity_offset raw));
  Some {| CONF_SENSOR := sensor;
          CONF_PIN := pin;
          CONF_MONITORED_CONDITIONS := conditions;
          CONF_NAME := default DEFAULT_NAME (raw_name raw);
          CONF_TEMPERATURE_OFFSET := temperature_offset;
          CONF_HUMIDITY_OFFSET := humidity_offset |}.

(** *** The sensor library and the board *)

(** The classes [adafruit_dht.DHT11] and [adafruit_dht.DHT22]. *)
Inductive sensor_class : Type :=
| DHT11
| DHT22.

Definition available_sensors : gmap string sensor_class :=
  <["AM2302"%string := DHT22]> (<["DHT11"%string := DHT11]> (<["DHT22"%string := DHT22]> ∅)).

(** What the sensor library answers during one poll: creating the handle
    [self.sensor(self.pin)], the properties [dht.humidity] and
    [dht.temperature] (a float, or [None] before a first measure), and
    [dht.exit()]. Each of the four can raise. *)
Record Device : Type := {
  dev_open : result unit;
  dev_humidity : result (option Q);
  dev_temperature : result (option Q);
  dev_exit : result unit;
}.

Inductive level : Type :=
| DEBUG
| ERROR
| EXCEPTION.

(** What a call does to the outside world, in order; the last two are the
    debug lines of [DHTSensor.update]. *)
Inductive event : Type :=
| EvOpen (cls : sensor_class) (pin : N)
| EvReadHumidity
| EvReadTemperature
| EvExit
| EvLog (lvl : level) (msg : string) (args : list string)
| EvLogTemperature (temperature temperature_offset : Q)
| EvLogHumidity (humidity humidity_offset : Q).

#[export] Instance sensor_class_eq_dec : EqDecision sensor_class.
Proof. solve_decision. Defined.

(** *** DHTClient *)

(** [throttle_last_run] is the state the [Throttle] decorator keeps on the
    client: the time of the last call it let through, if any. *)
Record DHTClient : Type := {
  sensor : sensor_class;
  pin : N;
  data : gmap string Q;
  name : string;
  throttle_last_run : option Z;
}.

Definition set_data (d : gmap string Q) (self : DHTClient) : DHTClient :=
  {| sensor := sensor self; pin := pin self; data := d; name := name self;
     throttle_last_run := throttle_last_run self |}.

Definition set_throttle_last_run (t : Z) (self : DHTClient) : DHTClient :=
  {| sensor := sensor self; pin := pin self; data := data self;
     name := name self; throttle_last_run := Some t |}.

(** [DHTClient.__init__]; [board] maps the attribute names of the [board]
    module to its pins, and [getattr] raises [AttributeError] on others. *)
Definition DHTClient_init (board : gmap string N)
    (sensor : sensor_class) (pin : string) (name : string) : result DHTClient :=
  match board !! pin with
  | Some p =>
    Return {| sensor := sensor; pin := p; data := ∅; name := name;
              throttle_last_run := None |}
  | None => Raise AttributeError
  end.

(** The [except] clauses of [DHTClient.update]. *)
Definition update_handler (self : DHTClient) (e : exn) : list event :=
  if is_RuntimeError e
  then [EvLog DEBUG "Unexpected value from DHT sensor: %s" [name self]]
  else [EvLog EXCEPTION "Error updating DHT sensor: %s" [name self]].

(** The body of [DHTClient.update], without its decorator. The handle is
    created before the [try]; the two assignments come after both reads;
    [dht.exit()] is the [finally] clause, and what it raises propagates. *)
Definition DHTClient_update_body (dev : Device) (self : DHTClient)
  : DHTClient * list event * result unit :=
  match dev_open dev with
  | Raise e => (self, [EvOpen (sensor self) (pin self)], Raise e)
  | Return _ =>
    let '(self', tried) :=
      match dev_humidity dev with
      | Raise e => (self, [EvReadHumidity] ++ update_handler self e)
      | Return humidity =>
        match dev_temperature dev with
        | Raise e =>
          (self, [EvReadHumidity; EvReadTemperature] ++ update_handler self e)
        | Return temperature =>
          let data1 :=
            match temperature with
            | Some t =>
              if truthy_float t then <[SENSOR_TEMPERATURE := t]> (data self)
              else data self
            | None => data self
            end in
          let data2 :=
            match humidity with
            | Some h =>
              if truthy_float h then <[SENSOR_HUMIDITY := h]> data1 else data1
            | None => data1
            end in
          (set_data data2 self, [EvReadHumidity; EvReadTemperature])
        end
      end in
    (self', [EvOpen (sensor self) (pin self)] ++ tried ++ [EvExit], dev_exit dev)
  end.

(** Modelled from the spec: the decorator [Throttle] of [homeassistant.util]
    is not under src/. It is the spec's minimum-interval rate limiter around
    a side-effecting call, "at most once per fixed interval": a call made
    when the clock reads [now] is let through when no call was let through
    before or more than [min_time] has passed since the last one that was;
    its time is recorded on the host object as it is let through, whatever
    the wrapped call then does; any other call does nothing and returns
    [None]. *)
Definition throttle_passes (min_time : Z) (last_run : option Z) (now : Z) : bool :=
  match last_run with
  | None => true
  | Some t => min_time <? now - t
  end.

Definition Throttle {A} (min_time : Z)
    (method : DHTClient -> DHTClient * list event * result A)
    (now : Z) (self : DHTClient) : DHTClient * list event * result (option A) :=
  if throttle_passes min_time (throttle_last_run self) now then
    let '(self', evs, r) := method (set_throttle_last_run now self) in
    (self', evs, a ← r; Return (Some a))
  else (self, [], Return None).

(** [DHTClient.update], as callers see it:
    [@Throttle(MIN_TIME_BETWEEN_UPDATES)]. *)
Definition DHTClient_update (now : Z) (dev : Device) (self : DHTClient)
  : DHTClient * list event * result (option unit) :=
  Throttle MIN_TIME_BETWEEN_UPDATES (DHTClient_update_body dev) now self.

(** *** DHTSensor *)

(** The attribute [dht_client] is not a field: every sensor of a platform
    wraps the one client that [setup_platform] creates, and that shared
    client is passed to [DHTSensor_update] and returned by it. *)
Record DHTSensor : Type := {
  client_name : string;
  _name : string;
  temp_unit : option unit_of_measurement;
  type : string;
  temperature_offset : Q;
  humidity_offset : Q;
  _state : option Q;
  _unit_of_measurement : option unit_of_measurement;
}.

Definition set_state (v : Q) (self : DHTSensor) : DHTSensor :=
  {| client_name := client_name self; _name := _name self;
     temp_unit := temp_unit self; type := type self;
     temperature_offset := temperature_offset self;
     humidity_offset := humidity_offset self;
     _state := Some v;
     _unit_of_measurement := _unit_of_measurement self |}.

(** The same sensor configured with another temperature offset. *)
Definition with_temperature_offset (offset : Q) (self : DHTSensor) : DHTSensor :=
  {| client_name := client_name self; _name := _name self;
     temp_unit := temp_unit self; type := type self;
     temperature_offset := offset;
     humidity_offset := humidity_offset self;
     _state := _state self;
     _unit_of_measurement := _unit_of_measurement self |}.

(** [DHTSensor.__init__], reading the current [SENSOR_TYPES]. *)
Definition DHTSensor_init
    (types : gmap string (string * option unit_of_measurement))
    (sensor_type : string) (temp_unit : option unit_of_measurement)
    (name : string) (temperature_offset humidity_offset : Q) : result DHTSensor :=
  entry0 ← getitem types sensor_type;
  entry1 ← getitem types sensor_type;
  Return {| client_name := name;
            _name := entry0.1;
            temp_unit := temp_unit;
            type := sensor_type;
            temperature_offset := temperature_offset;
            humidity_offset := humidity_offset;
            _state := None;
            _unit_of_measurement := entry1.2 |}.

(** The properties [name], [state] and [unit_of_measurement]. *)
Definition DHTSensor_name (self : DHTSensor) : string :=
  (client_name self ++ " " ++ _name self)%string.
Definition state (self : DHTSensor) : option Q := _state self.
Definition unit_of_measurement_of (self : DHTSensor) : option unit_of_measurement :=
  _unit_of_measurement self.

Section Update.

(** [celsius_to_fahrenheit] of [homeassistant.util.temperature] is not
    under src/: the update is given the conversion it calls. *)
Variable celsius_to_fahrenheit : Q -> Q.

(** The part of [DHTSensor.update] after the call of the client's update:
    [data] is [self.dht_client.data], and [data[k]] follows [k in data]. *)
Definition DHTSensor_refresh (data : gmap string Q) (self : DHTSensor)
  : DHTSensor * list event :=
  if String.eqb (type self) SENSOR_TEMPERATURE && contains data SENSOR_TEMPERATURE then
    match data !! SENSOR_TEMPERATURE with
    | Some temperature =>
      let log := [EvLogTemperature temperature (temperature_offset self)] in
      if le_lt (-20) temperature 80 then
        let self1 :=
          set_state (round (float_add temperature (temperature_offset self)) 1) self in
        if bool_decide (temp_unit self1 = Some TEMP_FAHRENHEIT) then
          (set_state (round (celsius_to_fahrenheit temperature) 1) self1, log)
        else (self1, log)
      else (self, log)
    | None => (self, [])
    end
  else if String.eqb (type self) SENSOR_HUMIDITY && contains data SENSOR_HUMIDITY then
    match data !! SENSOR_HUMIDITY with
    | Some humidity =>
      let log := [EvLogHumidity humidity (humidity_offset self)] in
      if le_le 0 humidity 100 then
        (set_state (round (float_add humidity (humidity_offset self)) 1) self, log)
      else (self, log)
    | None => (self, [])
    end
  else (self, []).

(** [DHTSensor.update]: the throttled update of the shared client, then the
    sensor's own metric. An exception of the client's update propagates
    before the sensor is touched. *)
Definition DHTSensor_update (now : Z) (dev : Device)
    (dht_client : DHTClient) (self : DHTSensor)
  : DHTClient * DHTSensor * list event * result unit :=
  let '(dht_client', evs, r) := DHTClient_update now dev dht_client in
  match r with
  | Raise e => (dht_client', self, evs, Raise e)
  | Return _ =>
    let '(self', log) := DHTSensor_refresh (data dht_client') self in
    (dht_client', self', evs ++ log, Return tt)
  end.

End Update.

(** *** setup_platform *)

(** The loop over [config[CONF_MONITORED_CONDITIONS]]: [dev] grows by one
    sensor per condition until a lookup in [SENSOR_TYPES] raises. *)
Fixpoint append_sensors
    (types : gmap string (string * option unit_of_measurement))
    (name : string) (temperature_offset humidity_offset : Q)
    (conditions : list string) (dev : list DHTSensor)
  : list DHTSensor * result unit :=
  match conditions with
  | [] => (dev, Return tt)
  | variable :: rest =>
    match (entry ← getitem types variable;
           DHTSensor_init types variable entry.2 name
             temperature_offset humidity_offset) with
    | Return s =>
      append_sensors types name temperature_offset humidity_offset rest (dev ++ [s])
    | Raise e => (dev, Raise e)
    end
  end.

(** How [setup_platform] ends when it raises nothing: it logs an error and
    returns [False], or it calls [add_entities(dev, True)] for the sensors
    [dev] wrapping the client [data] and returns [None]. [key_error] tells
    whether the [except KeyError] clause ran. *)
Inductive setup_return : Type :=
| ReturnFalse
| Added (data : DHTClient) (dev : list DHTSensor) (key_error : bool).

(** [setup_platform]; [temperature_unit] is
    [hass.config.units.temperature_unit], [types] the current
    [SENSOR_TYPES], which the call updates. *)
Definition setup_platform
    (temperature_unit : unit_of_measurement) (board : gmap string N)
    (types : gmap string (string * option unit_of_measurement))
    (config : Config)
  : gmap string (string * option unit_of_measurement) * list event * result setup_return :=
  match types !! SENSOR_TEMPERATURE with
  | None => (types, [], Raise KeyError)
  | Some entry =>
    let types := <[SENSOR_TEMPERATURE := (entry.1, Some temperature_unit)]> types in
    match available_sensors !! CONF_SENSOR config with
    | None =>
      (types, [EvLog ERROR "DHT sensor type is not supported" []], Return ReturnFalse)
    | Some sensor =>
      match DHTClient_init board sensor (CONF_PIN config) (CONF_NAME config) with
      | Raise e => (types, [], Raise e)
      | Return data =>
        match append_sensors types (CONF_NAME config)
                (CONF_TEMPERATURE_OFFSET config) (CONF_HUMIDITY_OFFSET config)
                (CONF_MONITORED_CONDITIONS config) [] with
        | (dev, Return _) => (types, [], Return (Added data dev false))
        | (dev, Raise KeyError) => (types, [], Return (Added data dev true))
        | (dev, Raise e) => (types, [], Raise e)
        end
      end
    end
  end.

(** The fields that [DHTSensor.__init__] fills in for a sensor of the
    platform named [name], from the [SENSOR_TYPES] it reads. *)
Definition constructed
    (types : gmap string (string * option unit_of_measurement))
    (name : string) (t_offset h_offset : Q) (s : DHTSensor) : Prop :=
  client_name s = name /\
  temperature_offset s = t_offset /\
  humidity_offset s = h_offset /\
  state s = None /\
  exists entry, types !! type s = Some entry /\
    _name s = entry.1 /\ temp_unit s = entry.2 /\ _unit_of_measurement s = entry.2.

(** *** Reading traces and devices *)

(** The number of handles created in a trace, one per real update, of
    handles released, of property reads, and of all four kinds of access. *)
Definition is_open (ev : event) : bool :=
  match ev with
  | EvOpen _ _ => true
  | _ => false
  end.

Definition is_read (ev : event) : bool :=
  match ev with
  | EvReadHumidity | EvReadTemperature => true
  | _ => false
  end.

Definition is_hardware (ev : event) : bool :=
  match ev with
  | EvOpen _ _ | EvReadHumidity | EvReadTemperature | EvExit => true
  | _ => false
  end.

Definition is_exit (ev : event) : bool :=
  match ev with
  | EvExit => true
  | _ => false
  end.

Definition polls (evs : list event) : nat := length (List.filter is_open evs).
Definition releases (evs : list event) : nat := length (List.filter is_exit evs).
Definition reads (evs : list event) : nat := length (List.filter is_read evs).

(** What the device answers for the metric [key]. *)
Definition raw_reading (dev : Device) (key : string) : result (option Q) :=
  if String.eqb key SENSOR_TEMPERATURE then dev_temperature dev
  else dev_humidity dev.

(** The exception that the [try] block of [DHTClient.update] meets, if
    any: humidity is read first. *)
Definition read_error (dev : Device) : option exn :=
  match dev_humidity dev with
  | Raise e => Some e
  | Return _ =>
    match dev_temperature dev with
    | Raise e => Some e
    | Return _ => None
    end
  end.

(** *** Sample values *)

(** The usual conversion, 1.8 degrees Fahrenheit per degree Celsius. *)
Definition sample_celsius_to_fahrenheit (celsius : Q) : Q :=
  (celsius * (18 # 10) + 32)%Q.

Definition sample_board : gmap string N := <["D4"%string := 4%N]> ∅.

Definition sample_client : DHTClient :=
  {| sensor := DHT22; pin := 4; data := ∅; name := DEFAULT_NAME;
     throttle_last_run := None |}.

Definition sample_sensor (sensor_type : string)
    (unit : unit_of_measurement) : DHTSensor :=
  {| client_name := DEFAULT_NAME;
     _name := if String.eqb sensor_type SENSOR_TEMPERATURE
              then "Temperature"%string else "Humidity"%string;
     temp_unit := Some unit; type := sensor_type;
     temperature_offset := 1 # 2; humidity_offset := -2;
     _state := Some 7%Q; _unit_of_measurement := Some unit |}.

(** A device that answers [humidity] and [temperature]. *)
Definition device_reading (humidity temperature : Q) : Device :=
  {| dev_open := Return tt;
     dev_humidity := Return (Some humidity);
     dev_temperature := Return (Some temperature);
     dev_exit := Return tt |}.

(** A device whose handle cannot be created, one whose creation raises
    [e], one whose every read raises [e], and one whose release raises after
    a good read. *)
Definition device_unavailable : Device :=
  {| dev_open := Raise RuntimeError;
     dev_humidity := Return None; dev_temperature := Return None;
     dev_exit := Return tt |}.

Definition device_refusing (e : exn) : Device :=
  {| dev_open := Raise e;
     dev_humidity := Return (Some 40%Q); dev_temperature := Return (Some 21%Q);
     dev_exit := Return tt |}.

Definition device_failing (e : exn) : Device :=
  {| dev_open := Return tt;
     dev_humidity := Raise e; dev_temperature := Raise e;
     dev_exit := Return tt |}.

Definition device_stuck : Device :=
  {| dev_open := Return tt;
     dev_humidity := Return (Some 40%Q); dev_temperature := Return (Some 21%Q);
     dev_exit := Raise OSError |}.

(** A configuration for a sensor of the given kind on pin 4, monitoring
    both conditions. *)
Definition sample_raw_config (kind : string) : RawConfig :=
  {| raw_sensor := Some kind;
     raw_pin := Some "4"%string;
     raw_monitored_conditions := Some (Many [SENSOR_TEMPERATURE; SENSOR_HUMIDITY]);
     raw_name := None;
     raw_temperature_offset := Some (1 # 2);
     raw_humidity_offset := None |}.

(** *** Predicates and runs used in the statements *)

(** Every character of [s] satisfies [P]. *)
Fixpoint all_chars (P : ascii -> bool) (s : string) : bool :=
  match s with
  | String c s' => P c && all_chars P s'
  | EmptyString => true
  end.

(** The characters of a string that [int()] accepts. *)
Definition int_char (c : ascii) : bool :=
  is_space c || is_digit c || Ascii.eqb c "_"%char
  || Ascii.eqb c "+"%char || Ascii.eqb c "-"%char.

(** The conditions before the first one that is not a key of [d]. *)
Fixpoint known_prefix {V} (d : gmap string V) (l : list string) : list string :=
  match l with
  | [] => []
  | c :: rest => if contains d c then c :: known_prefix d rest else []
  end.

(** Data that holds nothing but non-zero readings of the two metrics. *)
Definition readings_only (d : gmap string Q) : Prop :=
  forall k v, d !! k = Some v ->
    (k = SENSOR_TEMPERATURE \/ k = SENSOR_HUMIDITY) /\ ~ (v == 0)%Q.

(** The client after one real update per device answer, in order. *)
Fixpoint update_many (devs : list Device) (self : DHTClient) : DHTClient :=
  match devs with
  | [] => self
  | dev :: rest => update_many rest (DHTClient_update_body dev self).1.1
  end.

(** The accesses to the sensor library in a trace. *)
Definition hardware (evs : list event) : list event := List.filter is_hardware evs.

End DHT.

(** ** homeassistant/components/tplink/__init__.py *)

Module TPLink.
Import Py.

(** Modelled from the spec: the constants of [const.py] are not under src/.
    They are the keys of the domain state and of a config entry's data,
    taken as pairwise distinct strings, also distinct from the literal key
    ["add_attempt"]. *)
Definition DOMAIN : string := "tplink".
Definition ATTR_CONFIG : string := "config".
Definition CONF_DISCOVERY : string := "discovery".
Definition CONF_LIGHT : string := "light".
Definition CONF_SWITCH : string := "switch".
Definition CONF_RETRY_DELAY : string := "retry_delay".
Definition CONF_RETRY_MAX_ATTEMPTS : string := "retry_max_attempts".

Definition SOURCE_IMPORT : string := "import".

(** A device handle, with the attribute [host] that the code reads. *)
Record SmartDevice : Type := { host : string }.

(** Modelled from the spec: the class [SmartDevices] of [common.py] is not
    under src/; it holds the two lists of handles, both empty for
    [SmartDevices()]. *)
Record SmartDevices : Type := {
  lights : list SmartDevice;
  switches : list SmartDevice;
}.

Definition SmartDevices_new : SmartDevices := {| lights := []; switches := [] |}.

(** A value of the configuration: a flag, a number, a string or a list of
    configured hosts. *)
Inductive scalar : Type :=
| SBool (b : bool)
| SInt (n : Z)
| SStr (s : string)
| SHosts (l : list string).

(** A value stored in the domain state [hass.data[DOMAIN]]. *)
Inductive value : Type :=
| VNone
| VDict (d : gmap string scalar)
| VList (l : list SmartDevice)
| VScalar (x : scalar).

Definition truthy_scalar (x : scalar) : bool :=
  match x with
  | SBool b => b
  | SInt n => negb (n =? 0)
  | SStr s => negb (String.eqb s "")
  | SHosts l => negb (bool_decide (l = []))
  end.

(** [hass]: the process-wide store [hass.data], domain name to dict. *)
Record Hass : Type := { data : gmap string (gmap string value) }.

(** A config entry, with its [data]: [None] or a dict. *)
Record ConfigEntry : Type := { entry_data : option (gmap string scalar) }.

(** The collaborators that are not under src/: [get_static_devices] and
    [async_discover_devices] of [common.py], and what the host's
    [async_forward_entry_unload] reports for a platform. *)
Record Host : Type := {
  get_static_devices : gmap string scalar -> SmartDevices;
  async_discover_devices : Hass -> SmartDevices -> SmartDevices;
  forward_unload : string -> bool;
}.

(** What the module asks of the host, in order. *)
Inductive host_event : Type :=
| EvFlowInit (domain source : string)
| EvForwardSetup (platform : string)
| EvForwardUnload (platform : string) (unloaded : bool)
| EvLogDebug (msg : string) (count : nat) (hosts : list string).

(** A computation on [hass]: it returns the store as it has left it and
    the events it has caused, also when it raises. *)
Definition M (A : Type) : Type := Hass -> Hass * list host_event * result A.

Definition ret {A} (a : A) : M A := fun h => (h, [], Return a).

Definition bindM {A B} (m : M A) (k : A -> M B) : M B :=
  fun h =>
    match m h with
    | (h1, evs1, Return a) =>
      match k a h1 with
      | (h2, evs2, r) => (h2, evs1 ++ evs2, r)
      end
    | (h1, evs1, Raise e) => (h1, evs1, Raise e)
    end.

Definition emit (ev : host_event) : M unit := fun h => (h, [ev], Return tt).

(** [hass.data[DOMAIN]]. *)
Definition domain_state : M (gmap string value) :=
  fun h => (h, [], getitem (data h) DOMAIN).

(** [hass.data[DOMAIN] = d]. *)
Definition set_domain_state (d : gmap string value) : M unit :=
  fun h => ({| data := <[DOMAIN := d]> (data h) |}, [], Return tt).

(** [hass.data[DOMAIN][key]]. *)
Definition domain_getitem (key : string) : M value :=
  bindM domain_state (fun d => fun h => (h, [], getitem d key)).

(** [hass.data[DOMAIN][key] = v]. *)
Definition domain_setitem (key : string) (v : value) : M unit :=
  bindM domain_state (fun d => set_domain_state (<[key := v]> d)).

(** [hass.data[DOMAIN].clear()]. *)
Definition domain_clear : M unit :=
  bindM domain_state (fun _ => set_domain_state ∅).

(** [l.extend(more)] for the list [l] created under [hass.data[DOMAIN][key]]:
    the local name and the dict entry are one list object, so the entry
    changes with it. *)
Definition extend (key : string) (l more : list SmartDevice) : M (list SmartDevice) :=
  bindM (domain_setitem key (VList (l ++ more))) (fun _ => ret (l ++ more)).

(** [config_data[key]]. *)
Definition config_getitem (config_data : gmap string scalar) (key : string) : M scalar :=
  fun h => (h, [], getitem config_data key).

Definition when (b : bool) (m : M unit) : M unit := if b then m else ret tt.

#[export] Instance M_ret : MRet M := @ret.
#[export] Instance M_bind : MBind M := fun A B k m => bindM m k.

(** [await async_discover_devices(hass, static_devices)]. *)
Definition discover_devices (E : Host) (static_devices : SmartDevices) : M SmartDevices :=
  fun h => (h, [], Return (async_discover_devices E h static_devices)).

(** [await forward_unload(entry, platform)]. *)
Definition forward_entry_unload (E : Host) (platform : string) : M bool :=
  fun h => (h, [EvForwardUnload platform (forward_unload E platform)],
            Return (forward_unload E platform)).

(** [async_setup]. *)
Definition async_setup (config : gmap string (gmap string scalar)) : M bool :=
  let conf := config !! DOMAIN in
  _ ← set_domain_state ∅;
  _ ← domain_setitem ATTR_CONFIG (from_option VDict VNone conf);
  _ ← when (bool_decide (is_Some conf)) (emit (EvFlowInit DOMAIN SOURCE_IMPORT));
  mret true.

(** [async_setup_entry]. The locals [lights] and [switches] name the list
    objects stored in the domain state; [lights0], [lights1] are the
    successive contents of the one, [switches0], [switches1] of the other. *)
Definition async_setup_entry (E : Host) (config_entry : ConfigEntry) : M bool :=
  let config_data := entry_data config_entry in
  _ ← domain_setitem CONF_LIGHT (VList []);
  _ ← domain_setitem CONF_SWITCH (VList []);
  '(static_devices, lights0, switches0) ←
    match config_data with
    | Some config_data =>
      let static_devices := get_static_devices E config_data in
      lights0 ← extend CONF_LIGHT [] (lights static_devices);
      switches0 ← extend CONF_SWITCH [] (switches static_devices);
      retry_delay ← config_getitem config_data CONF_RETRY_DELAY;
      _ ← domain_setitem CONF_RETRY_DELAY (VScalar retry_delay);
      retry_max_attempts ← config_getitem config_data CONF_RETRY_MAX_ATTEMPTS;
      _ ← domain_setitem CONF_RETRY_MAX_ATTEMPTS (VScalar retry_max_attempts);
      mret (static_devices, lights0, switches0)
    | None => mret (SmartDevices_new, [], [])
    end;
  _ ← domain_setitem "add_attempt" (VScalar (SInt 0));
  discover ←
    match config_data with
    | None => mret true
    | Some config_data =>
      discovery ← config_getitem config_data CONF_DISCOVERY;
      mret (truthy_scalar discovery)
    end;
  '(lights1, switches1) ←
    (if discover : bool then
       discovered_devices ← discover_devices E static_devices;
       lights1 ← extend CONF_LIGHT lights0 (lights discovered_devices);
       switches1 ← extend CONF_SWITCH switches0 (switches discovered_devices);
       mret (lights1, switches1)
     else mret (lights0, switches0));
  _ ← when (negb (bool_decide (lights1 = [])))
        (_ ← emit (EvLogDebug "Got %s lights: %s" (length lights1) (host <$> lights1));
         emit (EvForwardSetup "light"));
  _ ← when (negb (bool_decide (switches1 = [])))
        (_ ← emit (EvLogDebug "Got %s switches: %s" (length switches1) (host <$> switches1));
         emit (EvForwardSetup "switch"));
  mret true.

(** Truth value of a stored value, for [if hass.data[DOMAIN][...]:]. *)
Definition truthy_value (v : value) : bool :=
  match v with
  | VNone => false
  | VDict d => negb (bool_decide (d = ∅))
  | VList l => negb (bool_decide (l = []))
  | VScalar x => truthy_scalar x
  end.

(** [async_unload_entry]. *)
Definition async_unload_entry (E : Host) : M bool :=
  have_lights ← domain_getitem CONF_LIGHT;
  remove_lights ←
    (if truthy_value have_lights then forward_entry_unload E "light" else mret false);
  have_switches ← domain_getitem CONF_SWITCH;
  remove_switches ←
    (if truthy_value have_switches then forward_entry_unload E "switch" else mret false);
  if remove_lights || remove_switches then
    _ ← domain_clear;
    mret true
  else mret false.

(** The operations of the module, and a run of one on [hass]. *)
Inductive operation : Type :=
| Setup (config : gmap string (gmap string scalar))
| SetupEntry (E : Host) (config_entry : ConfigEntry)
| UnloadEntry (E : Host).

Definition run (o : operation) : M bool :=
  match o with
  | Setup config => async_setup config
  | SetupEntry E config_entry => async_setup_entry E config_entry
  | UnloadEntry E => async_unload_entry E
  end.

(** The store after a run, whether it returned or raised. *)
Definition after (o : operation) (h : Hass) : Hass := (run o h).1.1.

(** The stores the module can produce from one in which the domain has no
    state yet. *)
Inductive reachable : Hass -> Prop :=
| reachable_start h : data h !! DOMAIN = None -> reachable h
| reachable_step h o : reachable h -> reachable (after o h).

(** The attempt counter of the domain state, if the state and the key
    exist. *)
Definition add_attempt (h : Hass) : option value :=
  d ← data h !! DOMAIN; d !! "add_attempt".

(** The domain state has just been created by [async_setup] or emptied by
    [async_unload_entry]: nothing of an earlier set-up is left in it. *)
Definition cleared (h : Hass) : Prop :=
  data h !! DOMAIN = Some ∅ \/
  exists conf, data h !! DOMAIN = Some (<[ATTR_CONFIG := conf]> ∅).

(** A triple for computations on [hass]: from a store satisfying [P], the
    computation leaves a store satisfying [R a] when it returns [a], and
    one satisfying [X] when it raises. *)
Definition triple {A} (P : Hass -> Prop) (m : M A)
    (R : A -> Hass -> Prop) (X : Hass -> Prop) : Prop :=
  forall h, P h ->
    match m h with
    | (h', _, Return a) => R a h'
    | (h', _, Raise _) => X h'
    end.

(** A computation that keeps [P], whether it returns or raises. *)
Definition keeps {A} (P : Hass -> Prop) (m : M A) : Prop :=
  triple P m (fun _ => P) P.

(** [hass.data[DOMAIN]] exists. *)
Definition has_domain_state (h : Hass) : Prop := is_Some (data h !! DOMAIN).

(** A computation that returns from a store with a domain state, which is
    still there afterwards. *)
Definition returns {A} (m : M A) : Prop :=
  triple has_domain_state m (fun _ => has_domain_state) (fun _ => False).

(** The domain state holds a list of lights, and one of switches too. *)
Definition holds_lights (h : Hass) : Prop :=
  exists d ls, data h !! DOMAIN = Some d /\ d !! CONF_LIGHT = Some (VList ls).

Definition holds_lists (h : Hass) : Prop :=
  exists d ls ss,
    data h !! DOMAIN = Some d /\
    d !! CONF_LIGHT = Some (VList ls) /\ d !! CONF_SWITCH = Some (VList ss).

(** The value that line 58 stores. *)
Definition zero : value := VScalar (SInt 0).

(** A config entry whose data, if any, has the three keys that
    [async_setup_entry] indexes. *)
Definition entry_complete (config_entry : ConfigEntry) : Prop :=
  match entry_data config_entry with
  | None => True
  | Some config_data =>
    is_Some (config_data !! CONF_RETRY_DELAY) /\
    is_Some (config_data !! CONF_RETRY_MAX_ATTEMPTS) /\
    is_Some (config_data !! CONF_DISCOVERY)
  end.

(** The store without the attempt counter, and a computation that is blind
    to the counter: run on two stores that differ in the counter only, it
    causes the same events, ends the same way, and leaves two stores that
    again differ in the counter only. *)
Definition forget (h : Hass) : Hass :=
  {| data := alter (delete "add_attempt"%string) DOMAIN (data h) |}.

Definition blind {A} (m : M A) : Prop :=
  forall h1 h2, forget h1 = forget h2 ->
    (m h1).1.2 = (m h2).1.2 /\ (m h1).2 = (m h2).2 /\
    forget (m h1).1.1 = forget (m h2).1.1.

(** The collaborator [async_discover_devices] does not read the counter. *)
Definition discovery_blind (E : Host) : Prop :=
  forall h1 h2 static_devices, forget h1 = forget h2 ->
    async_discover_devices E h1 static_devices =
    async_discover_devices E h2 static_devices.

Definition operation_blind (o : operation) : Prop :=
  match o with
  | SetupEntry E _ => discovery_blind E
  | _ => True
  end.

(** *** Sample values *)

Definition sample_config_data : gmap string scalar :=
  <[CONF_DISCOVERY := SBool false]>
    (<[CONF_RETRY_DELAY := SInt 5]> (<[CONF_RETRY_MAX_ATTEMPTS := SInt 3]> ∅)).

(** A host with one static light and nothing to discover, where only the
    light platform unloads. *)
Definition sample_host : Host :=
  {| get_static_devices := fun _ =>
       {| lights := [{| host := "10.0.0.2" |}]; switches := [] |};
     async_discover_devices := fun _ _ => SmartDevices_new;
     forward_unload := fun platform => String.eqb platform "light" |}.

Definition sample_entry : ConfigEntry := {| entry_data := Some sample_config_data |}.

(** The store after [async_setup] and [async_setup_entry] on an empty one. *)
Definition sample_hass : Hass :=
  after (SetupEntry sample_host sample_entry)
    (after (Setup (<[DOMAIN := sample_config_data]> ∅)) {| data := ∅ |}).

(** *** Definitions used in further statements *)

(** [hass.data[DOMAIN].get(key)]: an entry of the domain state, if the
    state and the key exist. *)
Definition lookup_domain (h : Hass) (key : string) : option value :=
  d ← data h !! DOMAIN; d !! key.

(** The static devices that [async_setup_entry] starts from, and whether
    it goes on to discover devices. *)
Definition static_devices_of (E : Host) (config_entry : ConfigEntry) : SmartDevices :=
  match entry_data config_entry with
  | Some config_data => get_static_devices E config_data
  | None => SmartDevices_new
  end.

Definition discovery_enabled (config_entry : ConfigEntry) : bool :=
  match entry_data config_entry with
  | Some config_data => from_option truthy_scalar false (config_data !! CONF_DISCOVERY)
  | None => true
  end.

(** The domain state at the call of [async_discover_devices]: the state
    [d] that [async_setup_entry] has found, after the assignments of lines 43
    to 58 in their order. *)
Definition domain_before_discovery (E : Host) (config_entry : ConfigEntry)
    (d : gmap string value) : gmap string value :=
  let d0 := <[CONF_SWITCH := VList []]> (<[CONF_LIGHT := VList []]> d) in
  let d1 :=
    match entry_data config_entry with
    | Some config_data =>
      let static_devices := get_static_devices E config_data in
      let d' := <[CONF_SWITCH := VList (switches static_devices)]>
                  (<[CONF_LIGHT := VList (lights static_devices)]> d0) in
      match config_data !! CONF_RETRY_DELAY, config_data !! CONF_RETRY_MAX_ATTEMPTS with
      | Some retry_delay, Some retry_max_attempts =>
        <[CONF_RETRY_MAX_ATTEMPTS := VScalar retry_max_attempts]>
          (<[CONF_RETRY_DELAY := VScalar retry_delay]> d')
      | _, _ => d'
      end
    | None => d0
    end in
  <["add_attempt"%string := VScalar (SInt 0)]> d1.

(** What [async_setup_entry] gets from discovery on the store [h]: the
    answer of [async_discover_devices] to the store as it is at the call and
    to the static devices, and nothing when discovery is disabled. *)
Definition discovered_devices_of (E : Host) (config_entry : ConfigEntry) (h : Hass)
  : SmartDevices :=
  if discovery_enabled config_entry then
    async_discover_devices E
      {| data := <[DOMAIN := domain_before_discovery E config_entry
                               (default ∅ (data h !! DOMAIN))]> (data h) |}
      (static_devices_of E config_entry)
  else SmartDevices_new.

(** An entry with discovery enabled, and a host with one static light that
    discovers one switch more, or two when the store already lists a
    light. *)
Definition sample_discovery_entry : ConfigEntry :=
  {| entry_data := Some (<[CONF_DISCOVERY := SBool true]> sample_config_data) |}.

Definition sample_discovering_host : Host :=
  {| get_static_devices := fun _ =>
       {| lights := [{| host := "10.0.0.2" |}]; switches := [] |};
     async_discover_devices := fun h _ =>
       {| lights := [];
          switches :=
            match lookup_domain h CONF_LIGHT with
            | Some (VList (_ :: _)) => [{| host := "10.0.0.3" |}; {| host := "10.0.0.4" |}]
            | _ => [{| host := "10.0.0.3" |}]
            end |};
     forward_unload := fun _ => true |}.

(** The debug line and the forwarded set-up for a platform with devices
    [l]; nothing for an empty list. *)
Definition forward_setup_events (platform msg : string) (l : list SmartDevice)
  : list host_event :=
  if bool_decide (l = []) then []
  else [EvLogDebug msg (length l) (host <$> l); EvForwardSetup platform].

(** A computation that is local to the domain state: it leaves the
    entries of the other domains alone and does not remove the domain
    state. *)
Definition local_to_domain {A} (m : M A) : Prop :=
  forall h,
    (forall k, k <> DOMAIN -> data (m h).1.1 !! k = data h !! k) /\
    (has_domain_state h -> has_domain_state (m h).1.1).

(** The store after a list of operations, in order. *)
Fixpoint run_all (ops : list operation) (h : Hass) : Hass :=
  match ops with
  | [] => h
  | o :: rest => run_all rest (after o h)
  end.

End TPLink.

(** * Properties of the DHT platform *)

Module DHTSpec.
Import Py DHT.

Local Open Scope Q_scope.

(** ** Comparisons and dict membership *)

Lemma le_lt_true (a x b : Q) : le_lt a x b = true <-> a <= x /\ x < b.
Proof.
  unfold le_lt. rewrite andb_true_iff, negb_true_iff, Qle_bool_iff.
  split; intros [Ha Hb]; split; try assumption.
  - apply Qnot_le_lt. intros Hle. apply Qle_bool_iff in Hle. congruence.
  - destruct (Qle_bool b x) eqn:Hle; [|reflexivity].
    apply Qle_bool_iff in Hle. exfalso. exact (Qlt_not_le _ _ Hb Hle).
Qed.

Lemma le_le_true (a x b : Q) : le_le a x b = true <-> a <= x /\ x <= b.
Proof. unfold le_le. now rewrite andb_true_iff, !Qle_bool_iff. Qed.

Lemma le_lt_false (a x b : Q) : ~ (a <= x /\ x < b) -> le_lt a x b = false.
Proof.
  intros H. destruct (le_lt a x b) eqn:E; [|reflexivity].
  exfalso. apply H. now apply le_lt_true.
Qed.

Lemma le_le_false (a x b : Q) : ~ (a <= x /\ x <= b) -> le_le a x b = false.
Proof.
  intros H. destruct (le_le a x b) eqn:E; [|reflexivity].
  exfalso. apply H. now apply le_le_true.
Qed.

Lemma contains_Some {V} (d : gmap string V) (k : string) (v : V) :
  d !! k = Some v -> contains d k = true.
Proof. intros H. unfold contains. apply bool_decide_eq_true. eauto. Qed.

Lemma contains_None {V} (d : gmap string V) (k : string) :
  d !! k = None -> contains d k = false.
Proof.
  intros H. unfold contains. apply bool_decide_eq_false.
  rewrite H. intros [v Hv]. discriminate.
Qed.

(** ** What [DHTSensor_refresh] does, case by case *)

Section SensorUpdate.

Variable celsius_to_fahrenheit : Q -> Q.

Local Abbreviation DHTSensor_refresh := (DHT.DHTSensor_refresh celsius_to_fahrenheit).
Local Abbreviation DHTSensor_update := (DHT.DHTSensor_update celsius_to_fahrenheit).

Lemma refresh_temperature_in_range (data : gmap string Q) (self : DHTSensor) (t : Q) :
  type self = SENSOR_TEMPERATURE ->
  data !! SENSOR_TEMPERATURE = Some t ->
  -20 <= t /\ t < 80 ->
  DHTSensor_refresh data self =
    (if bool_decide (temp_unit self = Some TEMP_FAHRENHEIT)
     then set_state (round (celsius_to_fahrenheit t) 1)
            (set_state (round (float_add t (temperature_offset self)) 1) self)
     else set_state (round (float_add t (temperature_offset self)) 1) self,
     [EvLogTemperature t (temperature_offset self)]).
Proof.
  intros Htype Hdata Hrange. unfold DHTSensor_refresh.
  rewrite Htype, String.eqb_refl, (contains_Some _ _ _ Hdata), Hdata.
  cbn [andb]. rewrite (proj2 (le_lt_true _ _ _) Hrange).
  cbn [temp_unit set_state]. now destruct (bool_decide _).
Qed.

Lemma refresh_temperature_out_of_range (data : gmap string Q) (self : DHTSensor) (t : Q) :
  type self = SENSOR_TEMPERATURE ->
  data !! SENSOR_TEMPERATURE = Some t ->
  ~ (-20 <= t /\ t < 80) ->
  DHTSensor_refresh data self = (self, [EvLogTemperature t (temperature_offset self)]).
Proof.
  intros Htype Hdata Hrange. unfold DHTSensor_refresh.
  rewrite Htype, String.eqb_refl, (contains_Some _ _ _ Hdata), Hdata.
  cbn [andb]. now rewrite (le_lt_false _ _ _ Hrange).
Qed.

Lemma refresh_humidity (data : gmap string Q) (self : DHTSensor) (h : Q) :
  type self = SENSOR_HUMIDITY ->
  data !! SENSOR_HUMIDITY = Some h ->
  DHTSensor_refresh data self =
    (if le_le 0 h 100
     then set_state (round (float_add h (humidity_offset self)) 1) self
     else self,
     [EvLogHumidity h (humidity_offset self)]).
Proof.
  intros Htype Hdata. unfold DHTSensor_refresh.
  rewrite Htype, (contains_Some _ _ _ Hdata), Hdata.
  change (String.eqb SENSOR_HUMIDITY SENSOR_TEMPERATURE) with false.
  rewrite String.eqb_refl. cbn [andb].
  now destruct (le_le 0 h 100).
Qed.

(** [DHTSensor_update] once the client's update has returned. *)
Lemma update_after_client now dev dht_client self dht_client' evs r :
  DHTClient_update now dev dht_client = (dht_client', evs, Return r) ->
  DHTSensor_update now dev dht_client self =
    (dht_client', (DHTSensor_refresh (data dht_client') self).1,
     evs ++ (DHTSensor_refresh (data dht_client') self).2, Return tt).
Proof.
  intros H. unfold DHTSensor_update. rewrite H.
  now destruct (DHTSensor_refresh (data dht_client') self).
Qed.

(** ** The displayed state after an update *)

(** The sum of floats is not the exact sum: -20.0 plus the double nearest
    to 0.35 is the double just above -19.65, displayed as -19.6, where the
    exact sum would be displayed as -19.7. *)
Lemma float_add_rounds :
  round (float_add (-20) (3152519739159347 # 9007199254740992)) 1 = -98 # 5 /\
  round (-20 + (3152519739159347 # 9007199254740992)) 1 = -197 # 10.
Proof. split; vm_compute; reflexivity. Qed.

(** C1. A temperature sensor displaying Celsius, whose update reads from
    the client's data a raw temperature [t] with [-20 <= t < 80], displays
    [round(t + temperature_offset, 1)] afterwards, the sum being the sum of
    floats (and the update returns, leaving the other attributes of the
    sensor as they were). *)
Theorem celsius_state now dev dht_client self dht_client' evs r (t : Q) :
  type self = SENSOR_TEMPERATURE ->
  temp_unit self = Some TEMP_CELSIUS ->
  DHTClient_update now dev dht_client = (dht_client', evs, Return r) ->
  data dht_client' !! SENSOR_TEMPERATURE = Some t ->
  -20 <= t /\ t < 80 ->
  exists self',
    DHTSensor_update now dev dht_client self =
      (dht_client', self', evs ++ [EvLogTemperature t (temperature_offset self)],
       Return tt) /\
    state self' = Some (round (float_add t (temperature_offset self)) 1) /\
    self' = set_state (round (float_add t (temperature_offset self)) 1) self.
Proof.
  intros Htype Hunit Hclient Hdata Hrange.
  exists (set_state (round (float_add t (temperature_offset self)) 1) self).
  split; [|split; reflexivity].
  rewrite (update_after_client _ _ _ _ _ _ _ Hclient).
  rewrite (refresh_temperature_in_range _ _ _ Htype Hdata Hrange).
  rewrite Hunit. reflexivity.
Qed.

(** C2. A temperature sensor displaying Fahrenheit, whose update reads a raw
    Celsius temperature [t] with [-20 <= t < 80], displays
    [round(celsius_to_fahrenheit(t), 1)] afterwards, computed from the raw
    value: whatever the configured temperature offset is, the displayed
    state is the same. *)
Theorem fahrenheit_state now dev dht_client self dht_client' evs r (t : Q) :
  type self = SENSOR_TEMPERATURE ->
  temp_unit self = Some TEMP_FAHRENHEIT ->
  DHTClient_update now dev dht_client = (dht_client', evs, Return r) ->
  data dht_client' !! SENSOR_TEMPERATURE = Some t ->
  -20 <= t /\ t < 80 ->
  (exists self',
     DHTSensor_update now dev dht_client self =
       (dht_client', self', evs ++ [EvLogTemperature t (temperature_offset self)],
        Return tt) /\
     state self' = Some (round (celsius_to_fahrenheit t) 1)) /\
  (forall offset : Q,
     state (DHTSensor_update now dev dht_client
              (with_temperature_offset offset self)).1.1.2 =
     Some (round (celsius_to_fahrenheit t) 1)).
Proof.
  intros Htype Hunit Hclient Hdata Hrange. split.
  - exists (set_state (round (celsius_to_fahrenheit t) 1)
              (set_state (round (float_add t (temperature_offset self)) 1) self)).
    split; [|reflexivity].
    rewrite (update_after_client _ _ _ _ _ _ _ Hclient).
    rewrite (refresh_temperature_in_range _ _ _ Htype Hdata Hrange).
    rewrite Hunit. reflexivity.
  - intros offset.
    rewrite (update_after_client _ _ _ _ _ _ _ Hclient).
    rewrite (refresh_temperature_in_range _ _ t); [|exact Htype|exact Hdata|exact Hrange].
    cbn [temp_unit with_temperature_offset]. rewrite Hunit. reflexivity.
Qed.

(** C3. A humidity sensor whose update reads from the client's data a raw
    humidity [h] with [0 <= h <= 100] displays
    [round(h + humidity_offset, 1)] afterwards, the sum being the sum of
    floats. *)
Theorem humidity_state now dev dht_client self dht_client' evs r (h : Q) :
  type self = SENSOR_HUMIDITY ->
  DHTClient_update now dev dht_client = (dht_client', evs, Return r) ->
  data dht_client' !! SENSOR_HUMIDITY = Some h ->
  0 <= h /\ h <= 100 ->
  exists self',
    DHTSensor_update now dev dht_client self =
      (dht_client', self', evs ++ [EvLogHumidity h (humidity_offset self)],
       Return tt) /\
    state self' = Some (round (float_add h (humidity_offset self)) 1) /\
    self' = set_state (round (float_add h (humidity_offset self)) 1) self.
Proof.
  intros Htype Hclient Hdata Hrange.
  exists (set_state (round (float_add h (humidity_offset self)) 1) self).
  split; [|split; reflexivity].
  rewrite (update_after_client _ _ _ _ _ _ _ Hclient).
  rewrite (refresh_humidity _ _ _ Htype Hdata).
  now rewrite (proj2 (le_le_true _ _ _) Hrange).
Qed.

(** C4. When the raw reading that the update extracts for the sensor's
    metric is outside the accepted range (a temperature outside [-20, 80),
    a humidity outside [0, 100]), the update returns without raising and
    the sensor, its displayed state included, is what it was. *)
Theorem out_of_range_state_unchanged now dev dht_client self dht_client' evs r (v : Q) :
  DHTClient_update now dev dht_client = (dht_client', evs, Return r) ->
  (type self = SENSOR_TEMPERATURE /\
   data dht_client' !! SENSOR_TEMPERATURE = Some v /\ ~ (-20 <= v /\ v < 80)) \/
  (type self = SENSOR_HUMIDITY /\
   data dht_client' !! SENSOR_HUMIDITY = Some v /\ ~ (0 <= v /\ v <= 100)) ->
  exists log,
    DHTSensor_update now dev dht_client self =
      (dht_client', self, evs ++ log, Return tt) /\
    state (DHTSensor_update now dev dht_client self).1.1.2 = state self.
Proof.
  intros Hclient Hcase.
  rewrite (update_after_client _ _ _ _ _ _ _ Hclient).
  destruct Hcase as [(Htype & Hdata & Hrange) | (Htype & Hdata & Hrange)].
  - rewrite (refresh_temperature_out_of_range _ _ _ Htype Hdata Hrange).
    eexists. split; reflexivity.
  - rewrite (refresh_humidity _ _ _ Htype Hdata), (le_le_false _ _ _ Hrange).
    eexists. split; reflexivity.
Qed.

End SensorUpdate.

(** ** The client's update *)

Lemma truthy_float_zero (v : Q) : v == 0 -> truthy_float v = false.
Proof.
  intros H. unfold truthy_float. apply negb_false_iff. now apply Qeq_bool_iff.
Qed.

(** The data after the body of the update: the old one, unless both reads
    returned. *)
Lemma body_data dev self :
  data (DHTClient_update_body dev self).1.1 =
    match dev_open dev, dev_humidity dev, dev_temperature dev with
    | Return _, Return humidity, Return temperature =>
      let data1 :=
        if truthy temperature
        then <[SENSOR_TEMPERATURE := default 0 temperature]> (data self)
        else data self in
      if truthy humidity
      then <[SENSOR_HUMIDITY := default 0 humidity]> data1
      else data1
    | _, _, _ => data self
    end.
Proof.
  unfold DHTClient_update_body.
  destruct (dev_open dev); [|reflexivity].
  destruct (dev_humidity dev) as [[h|]|]; [| |reflexivity];
    (destruct (dev_temperature dev) as [[t|]|]; [| |reflexivity]);
    cbn; repeat (destruct (truthy_float _)); reflexivity.
Qed.

(** When both reads return, whatever they return, nothing is logged. *)
Lemma body_silent dev self :
  dev_open dev = Return tt -> read_error dev = None ->
  (DHTClient_update_body dev self).1.2 =
    [EvOpen (sensor self) (pin self); EvReadHumidity; EvReadTemperature; EvExit].
Proof.
  intros Hopen Hread. unfold DHTClient_update_body, read_error in *. rewrite Hopen.
  destruct (dev_humidity dev); [|discriminate].
  destruct (dev_temperature dev); [reflexivity|discriminate].
Qed.

(** C5. The update stores a raw temperature or humidity reading in the
    client's data only if the reading is truthy: an entry that changes has
    become a truthy reading of the device, and for a reading of exactly zero
    the entry is left as it was, silently (when both reads return, the
    update logs nothing). *)
Theorem falsy_reading_not_stored dev self (key : string) :
  key = SENSOR_TEMPERATURE \/ key = SENSOR_HUMIDITY ->
  let self' := (DHTClient_update_body dev self).1.1 in
  (data self' !! key <> data self !! key ->
   exists v, raw_reading dev key = Return (Some v) /\ truthy_float v = true /\
             data self' !! key = Some v) /\
  (forall v, raw_reading dev key = Return (Some v) -> v == 0 ->
             data self' !! key = data self !! key) /\
  (dev_open dev = Return tt -> read_error dev = None ->
   (DHTClient_update_body dev self).1.2 =
     [EvOpen (sensor self) (pin self); EvReadHumidity; EvReadTemperature; EvExit]).
Proof.
  intros Hkey self'. subst self'.
  apply and_assoc. split; [|apply body_silent].
  rewrite body_data.
  destruct (dev_open dev) as [[]|e]; [|split; [intros H; now destruct H|reflexivity]].
  destruct Hkey as [-> | ->]; unfold raw_reading; cbn [String.eqb];
    change (String.eqb SENSOR_TEMPERATURE SENSOR_TEMPERATURE) with true;
    change (String.eqb SENSOR_HUMIDITY SENSOR_TEMPERATURE) with false; cbv iota.
  - destruct (dev_humidity dev) as [humidity|e].
    2:{ split; [intros H; now destruct H|reflexivity]. }
    destruct (dev_temperature dev) as [temperature|e].
    2:{ split; [intros H; now destruct H|intros v Hv; discriminate]. }
    cbv zeta.
    assert (Hne : SENSOR_HUMIDITY <> SENSOR_TEMPERATURE) by discriminate.
    assert (Hh : forall d : gmap string Q,
               (if truthy humidity then <[SENSOR_HUMIDITY := default 0 humidity]> d else d)
                 !! SENSOR_TEMPERATURE = d !! SENSOR_TEMPERATURE).
    { intros d. destruct (truthy humidity); [|reflexivity].
      now rewrite lookup_insert_ne. }
    rewrite Hh. split.
    + intros Hchanged. destruct temperature as [t|]; cbn in *.
      * destruct (truthy_float t) eqn:Ht; [|now destruct Hchanged].
        exists t. now rewrite lookup_insert_eq.
      * now destruct Hchanged.
    + intros v [= ->] Hzero. cbn. now rewrite (truthy_float_zero _ Hzero).
  - destruct (dev_humidity dev) as [humidity|e].
    2:{ split; [intros H; now destruct H|intros v Hv; discriminate]. }
    destruct (dev_temperature dev) as [temperature|e].
    2:{ split; [intros H; now destruct H|reflexivity]. }
    cbv zeta.
    assert (Hne : SENSOR_TEMPERATURE <> SENSOR_HUMIDITY) by discriminate.
    assert (Ht : forall d : gmap string Q,
               (if truthy temperature
                then <[SENSOR_TEMPERATURE := default 0 temperature]> d else d)
                 !! SENSOR_HUMIDITY = d !! SENSOR_HUMIDITY).
    { intros d. destruct (truthy temperature); [|reflexivity].
      now rewrite lookup_insert_ne. }
    split.
    + intros Hchanged. destruct humidity as [h|]; cbn in *.
      * destruct (truthy_float h) eqn:Hh.
        -- exists h. now rewrite lookup_insert_eq.
        -- rewrite Ht in Hchanged. now destruct Hchanged.
      * rewrite Ht in Hchanged. now destruct Hchanged.
    + intros v [= ->] Hzero. cbn. now rewrite (truthy_float_zero _ Hzero), Ht.
Qed.

(** ** Throttling *)

(** The body of the update leaves the decorator's record alone. *)
Lemma body_throttle_last_run dev self :
  throttle_last_run (DHTClient_update_body dev self).1.1 = throttle_last_run self.
Proof.
  unfold DHTClient_update_body.
  destruct (dev_open dev); [|reflexivity].
  destruct (dev_humidity dev); [|reflexivity].
  destruct (dev_temperature dev); reflexivity.
Qed.

(** One real update creates one handle and reads at most twice. *)
Lemma body_polls dev self :
  polls (DHTClient_update_body dev self).1.2 = 1%nat /\
  (reads (DHTClient_update_body dev self).1.2 <= 2)%nat.
Proof.
  unfold DHTClient_update_body, update_handler.
  destruct (dev_open dev); [|split; cbn; lia].
  destruct (dev_humidity dev) as [?|e]; [|destruct (is_RuntimeError e); split; cbn; lia].
  destruct (dev_temperature dev) as [?|e]; [|destruct (is_RuntimeError e); split; cbn; lia].
  split; cbn; lia.
Qed.

(** A call that the throttle holds back does nothing at all. *)
Lemma throttled_call now dev self :
  throttle_passes MIN_TIME_BETWEEN_UPDATES (throttle_last_run self) now = false ->
  DHTClient_update now dev self = (self, [], Return None).
Proof. intros H. unfold DHTClient_update, Throttle. now rewrite H. Qed.

(** A call that is let through runs the body and records its time. *)
Lemma passed_call now dev self :
  throttle_passes MIN_TIME_BETWEEN_UPDATES (throttle_last_run self) now = true ->
  (DHTClient_update now dev self).1.2 =
    (DHTClient_update_body dev (set_throttle_last_run now self)).1.2 /\
  throttle_last_run (DHTClient_update now dev self).1.1 = Some now.
Proof.
  intros H. unfold DHTClient_update, Throttle. rewrite H.
  pose proof (body_throttle_last_run dev (set_throttle_last_run now self)) as Hl.
  destruct (DHTClient_update_body dev (set_throttle_last_run now self))
    as [[self' evs] r].
  split; [reflexivity|exact Hl].
Qed.

Lemma update_polls now dev self :
  (polls (DHTClient_update now dev self).1.2 <= 1)%nat.
Proof.
  destruct (throttle_passes MIN_TIME_BETWEEN_UPDATES (throttle_last_run self) now) eqn:H.
  - rewrite (proj1 (passed_call _ dev _ H)).
    now rewrite (proj1 (body_polls dev _)).
  - rewrite (throttled_call _ dev _ H). cbn. lia.
Qed.

(** A call followed by one at most [MIN_TIME_BETWEEN_UPDATES] later: one of
    the two is held back. *)
Lemma close_calls (t1 t2 : Z) dev1 dev2 self :
  (t2 - t1 <= MIN_TIME_BETWEEN_UPDATES)%Z ->
  DHTClient_update t1 dev1 self = (self, [], Return None) \/
  DHTClient_update t2 dev2 (DHTClient_update t1 dev1 self).1.1 =
    ((DHTClient_update t1 dev1 self).1.1, [], Return None).
Proof.
  intros Hclose.
  destruct (throttle_passes MIN_TIME_BETWEEN_UPDATES (throttle_last_run self) t1) eqn:Hpass.
  - right. apply throttled_call.
    rewrite (proj2 (passed_call _ dev1 _ Hpass)).
    cbn. apply Z.ltb_ge. exact Hclose.
  - left. now apply throttled_call.
Qed.

Lemma two_calls_one_read_polls (t1 t2 : Z) dev1 dev2 self :
  (t2 - t1 <= MIN_TIME_BETWEEN_UPDATES)%Z ->
  (polls ((DHTClient_update t1 dev1 self).1.2 ++
          (DHTClient_update t2 dev2 (DHTClient_update t1 dev1 self).1.1).1.2) <= 1)%nat.
Proof.
  intros Hclose.
  destruct (close_calls t1 t2 dev1 dev2 self Hclose) as [H|H]; rewrite H.
  - cbn [fst snd app]. apply update_polls.
  - cbn [fst snd]. rewrite app_nil_r. apply update_polls.
Qed.


(** The client is shared: the updates of two sensors that wrap it, the
    second at most [MIN_TIME_BETWEEN_UPDATES] after the first, make at most
    one real update of the client between them. *)
Lemma two_sensors_one_read celsius_to_fahrenheit (t1 t2 : Z) dev1 dev2 dht_client s1 s2 :
  (t2 - t1 <= MIN_TIME_BETWEEN_UPDATES)%Z ->
  let first := DHTSensor_update celsius_to_fahrenheit t1 dev1 dht_client s1 in
  let second := DHTSensor_update celsius_to_fahrenheit t2 dev2 first.1.1.1 s2 in
  (polls (first.1.2 ++ second.1.2) <= 1)%nat.
Proof.
  intros Hclose first second.
  assert (Hsensor : forall now dev c s,
    (DHTSensor_update celsius_to_fahrenheit now dev c s).1.1.1 = (DHTClient_update now dev c).1.1 /\
    polls (DHTSensor_update celsius_to_fahrenheit now dev c s).1.2 = polls (DHTClient_update now dev c).1.2).
  { intros now dev c s. unfold DHTSensor_update.
    destruct (DHTClient_update now dev c) as [[c' evs] [r|e]]; [|split; reflexivity].
    assert (Hlog : polls (DHTSensor_refresh celsius_to_fahrenheit (data c') s).2 = 0%nat).
    { unfold DHTSensor_refresh.
      repeat (match goal with |- context [if ?b then _ else _] => destruct b end
              || match goal with |- context [match ?x with Some _ => _ | None => _ end] =>
                   destruct x end); reflexivity. }
    destruct (DHTSensor_refresh celsius_to_fahrenheit (data c') s) as [s' log]. cbn in *.
    split; [reflexivity|].
    unfold polls in *. rewrite List.filter_app, length_app, Hlog. lia. }
  pose proof (two_calls_one_read_polls t1 t2 dev1 dev2 dht_client Hclose) as H.
  unfold polls in *. rewrite List.filter_app, length_app in *.
  subst first second.
  destruct (Hsensor t1 dev1 dht_client s1) as [-> ->].
  destruct (Hsensor t2 dev2 (DHTClient_update t1 dev1 dht_client).1.1 s2) as [_ ->].
  exact H.
Qed.

(** ** Errors of the update *)

(** With a handle, the outcome of the update is that of the release. *)
Lemma body_result dev self :
  dev_open dev = Return tt -> (DHTClient_update_body dev self).2 = dev_exit dev.
Proof.
  intros Hopen. unfold DHTClient_update_body. rewrite Hopen.
  destruct (dev_humidity dev); [|reflexivity].
  destruct (dev_temperature dev); reflexivity.
Qed.

(** C7 fails as it is stated: an error raised when the handle is created,
    before the [try], reaches the caller (and no handle exists to release);
    so does an error raised by the release itself. *)
Lemma update_can_raise :
  DHTClient_update_body device_unavailable sample_client =
    (sample_client, [EvOpen DHT22 4], Raise RuntimeError) /\
  DHTClient_update 0 device_unavailable sample_client =
    (set_throttle_last_run 0 sample_client, [EvOpen DHT22 4], Raise RuntimeError) /\
  (DHTClient_update_body device_stuck sample_client).2 = Raise OSError.
Proof. split; [|split]; reflexivity. Qed.

(** C7, amended. The update raises what creating or releasing the handle
    raises, and nothing else. An error of creating the handle, whatever its
    class, reaches the caller, also through the throttle when the call is let
    through: nothing is read, logged, stored or released. Once the handle is
    created, no error of the two reads reaches the caller: a [RuntimeError]
    is logged at debug level, any other error is logged with [exception], in
    both cases the data is what it was, and on every path the handle is
    released last, exactly once, the outcome of the update being that of the
    release, so that an error of the release reaches the caller too. *)
Theorem read_errors_swallowed dev self :
  (forall e, dev_open dev = Raise e ->
     DHTClient_update_body dev self =
       (self, [EvOpen (sensor self) (pin self)], Raise e) /\
     forall now,
       throttle_passes MIN_TIME_BETWEEN_UPDATES (throttle_last_run self) now = true ->
       (DHTClient_update now dev self).1.2 = [EvOpen (sensor self) (pin self)] /\
       (DHTClient_update now dev self).2 = Raise e) /\
  (dev_open dev = Return tt ->
   let '(self', evs, r) := DHTClient_update_body dev self in
   r = dev_exit dev /\
   List.last evs (EvOpen (sensor self) (pin self)) = EvExit /\
   releases evs = 1%nat /\
   (dev_exit dev = Return tt ->
    r = Return tt /\ forall now, returned (DHTClient_update now dev self).2 = true) /\
   (forall e, dev_exit dev = Raise e ->
      r = Raise e /\
      forall now,
        throttle_passes MIN_TIME_BETWEEN_UPDATES (throttle_last_run self) now = true ->
        (DHTClient_update now dev self).2 = Raise e) /\
   (forall e, read_error dev = Some e ->
      self' = self /\
      (is_RuntimeError e = true ->
       In (EvLog DEBUG "Unexpected value from DHT sensor: %s" [name self]) evs) /\
      (is_RuntimeError e = false ->
       In (EvLog EXCEPTION "Error updating DHT sensor: %s" [name self]) evs))).
Proof.
  split.
  { intros e Hopen. split.
    - unfold DHTClient_update_body. now rewrite Hopen.
    - intros now Hpass. unfold DHTClient_update, Throttle. rewrite Hpass.
      unfold DHTClient_update_body. rewrite Hopen. split; reflexivity. }
  intros Hopen.
  assert (Hcaller : dev_exit dev = Return tt ->
            forall now, returned (DHTClient_update now dev self).2 = true).
  { intros Hexit now. unfold DHTClient_update, Throttle.
    destruct (throttle_passes _ _ _); [|reflexivity].
    pose proof (body_result dev (set_throttle_last_run now self) Hopen) as Hr.
    destruct (DHTClient_update_body dev (set_throttle_last_run now self))
      as [[self' evs] r].
    cbn in Hr. subst r. now rewrite Hexit. }
  assert (Hrelease : forall e, dev_exit dev = Raise e ->
            forall now,
              throttle_passes MIN_TIME_BETWEEN_UPDATES (throttle_last_run self) now = true ->
              (DHTClient_update now dev self).2 = Raise e).
  { intros e Hexit now Hpass. unfold DHTClient_update, Throttle. rewrite Hpass.
    pose proof (body_result dev (set_throttle_last_run now self) Hopen) as Hr.
    destruct (DHTClient_update_body dev (set_throttle_last_run now self))
      as [[self' evs] r].
    cbn in Hr. subst r. now rewrite Hexit. }
  unfold DHTClient_update_body, read_error. rewrite Hopen.
  destruct (dev_humidity dev) as [humidity|e1].
  - destruct (dev_temperature dev) as [temperature|e2].
    + split; [reflexivity|]. split; [reflexivity|]. split; [reflexivity|].
      split; [auto|]. split; [auto|]. intros e He. discriminate.
    + split; [reflexivity|].
      split; [unfold update_handler; now destruct (is_RuntimeError e2)|].
      split; [unfold update_handler; now destruct (is_RuntimeError e2)|].
      split; [auto|]. split; [auto|]. intros e [= <-].
      split; [reflexivity|].
      split; intros E; apply in_cons, in_or_app; left;
        apply in_or_app; right; unfold update_handler; rewrite E; now left.
  - split; [reflexivity|].
    split; [unfold update_handler; now destruct (is_RuntimeError e1)|].
    split; [unfold update_handler; now destruct (is_RuntimeError e1)|].
    split; [auto|]. split; [auto|]. intros e [= <-].
    split; [reflexivity|].
    split; intros E; apply in_cons, in_or_app; left;
      apply in_or_app; right; unfold update_handler; rewrite E; now left.
Qed.

(** ** Platform set-up *)

Lemma append_sensors_known types name temperature_offset humidity_offset
    (conditions : list string) (dev : list DHTSensor) :
  Forall (fun c => is_Some (types !! c)) conditions ->
  exists new,
    append_sensors types name temperature_offset humidity_offset conditions dev =
      (dev ++ new, Return tt) /\
    type <$> new = conditions /\
    Forall (constructed types name temperature_offset humidity_offset) new.
Proof.
  intros Hall. revert dev.
  induction Hall as [|variable rest [entry Hentry] _ IH]; intros dev.
  - exists []. rewrite app_nil_r. repeat split. constructor.
  - destruct (IH (dev ++ [{| client_name := name; _name := entry.1;
                             temp_unit := entry.2; type := variable;
                             DHT.temperature_offset := temperature_offset;
                             DHT.humidity_offset := humidity_offset;
                             _state := None;
                             _unit_of_measurement := entry.2 |}]))
      as (new & Hrun & Htypes & Hnew).
    eexists (_ :: new). split; [|split].
    + cbn [append_sensors]. unfold DHTSensor_init, getitem, mbind, result_bind, bind.
      rewrite Hentry. cbn. 
      rewrite Hrun, <- app_assoc. reflexivity.
    + cbn. now rewrite Htypes.
    + constructor; [|exact Hnew].
      repeat split. exists entry. cbn. now rewrite Hentry.
Qed.

Lemma vol_In_keys {V} (d : gmap string V) (l l' : list string) :
  vol_In d l = Some l' -> l' = l /\ Forall (fun c => is_Some (d !! c)) l.
Proof.
  unfold vol_In. destruct (forallb (contains d) l) eqn:Hall; [|discriminate].
  intros [= <-]. split; [reflexivity|].
  apply Forall_forall. intros c Hc.
  rewrite forallb_forall in Hall. specialize (Hall c).
  rewrite <- list_elem_of_In in Hall. specialize (Hall Hc).
  unfold contains in Hall. now apply bool_decide_eq_true in Hall.
Qed.

Lemma schema_conditions types raw config :
  PLATFORM_SCHEMA types raw = Some config ->
  Forall (fun c => is_Some (types !! c)) (CONF_MONITORED_CONDITIONS config).
Proof.
  unfold PLATFORM_SCHEMA. intros H.
  destruct (raw_sensor raw); [|discriminate]. cbn in H.
  destruct (raw_pin raw); [|discriminate]. cbn in H.
  destruct (vol_In types _) as [conditions|] eqn:Hin; [|discriminate]. cbn in H.
  destruct (vol_Range _ _ (default 0 (raw_temperature_offset raw))); [|discriminate].
  cbn in H.
  destruct (vol_Range _ _ (default 0 (raw_humidity_offset raw))); [|discriminate].
  cbn in H. injection H as <-. cbn.
  apply vol_In_keys in Hin as [-> Hall]. exact Hall.
Qed.

(** Storing the host's unit keeps the keys of [SENSOR_TYPES]. *)
Lemma store_unit u0 unit :
  <[SENSOR_TEMPERATURE := ("Temperature"%string, Some unit)]> (SENSOR_TYPES_with u0) =
  SENSOR_TYPES_with (Some unit).
Proof.
  unfold SENSOR_TYPES_with.
  rewrite insert_insert_ne by discriminate.
  now rewrite insert_insert_eq.
Qed.

Lemma SENSOR_TYPES_keys u0 u1 (c : string) :
  is_Some (SENSOR_TYPES_with u0 !! c) -> is_Some (SENSOR_TYPES_with u1 !! c).
Proof.
  unfold SENSOR_TYPES_with. rewrite !lookup_insert.
  repeat case_decide; eauto.
Qed.

(** C10 fails as it is stated: the schema accepts any string as the
    sensor kind, and for a kind the platform does not know it logs an error
    and returns [False] before a sensor is constructed, so none is
    registered for the two monitored conditions. *)
Lemma unknown_kind_registers_nothing :
  exists config,
    PLATFORM_SCHEMA SENSOR_TYPES (sample_raw_config "DHT33") = Some config /\
    CONF_MONITORED_CONDITIONS config = [SENSOR_TEMPERATURE; SENSOR_HUMIDITY] /\
    (setup_platform TEMP_CELSIUS sample_board SENSOR_TYPES config).2 =
      Return ReturnFalse.
Proof. eexists. split; [reflexivity|]. split; reflexivity. Qed.

(** C10, amended. For a configuration that the platform schema accepts,
    every monitored condition is a key of [SENSOR_TYPES] and the
    [except KeyError] clause of [setup_platform] never runs; and when the
    sensor kind is one of the three the platform knows and the pin is an
    attribute of the board, exactly one sensor per monitored condition is
    constructed, in order, and registered. (For another kind the platform
    returns [False], for another pin it raises [AttributeError]; nothing is
    registered then.) *)
Theorem accepted_config_sensors u0 raw config unit (board : gmap string N) :
  PLATFORM_SCHEMA (SENSOR_TYPES_with u0) raw = Some config ->
  let '(types', evs, r) := setup_platform unit board (SENSOR_TYPES_with u0) config in
  Forall (fun c => is_Some (SENSOR_TYPES !! c)) (CONF_MONITORED_CONDITIONS config) /\
  r <> Raise KeyError /\
  (forall data dev key_error, r = Return (Added data dev key_error) -> key_error = false) /\
  (forall cls p,
     available_sensors !! CONF_SENSOR config = Some cls ->
     board !! CONF_PIN config = Some p ->
     exists data dev,
       r = Return (Added data dev false) /\
       DHTClient_init board cls (CONF_PIN config) (CONF_NAME config) = Return data /\
       type <$> dev = CONF_MONITORED_CONDITIONS config /\
       Forall (constructed types' (CONF_NAME config)
                 (CONF_TEMPERATURE_OFFSET config) (CONF_HUMIDITY_OFFSET config)) dev).
Proof.
  intros Hschema. apply schema_conditions in Hschema.
  assert (Hkeys : Forall (fun c => is_Some (SENSOR_TYPES_with (Some unit) !! c))
                    (CONF_MONITORED_CONDITIONS config)).
  { eapply Forall_impl; [exact Hschema|]. intros c. apply SENSOR_TYPES_keys. }
  unfold setup_platform.
  change (SENSOR_TYPES_with u0 !! SENSOR_TEMPERATURE)
    with (Some ("Temperature"%string, u0)).
  cbn [fst]. rewrite store_unit.
  destruct (append_sensors_known (SENSOR_TYPES_with (Some unit)) (CONF_NAME config)
              (CONF_TEMPERATURE_OFFSET config) (CONF_HUMIDITY_OFFSET config)
              (CONF_MONITORED_CONDITIONS config) [] Hkeys) as (dev & Hrun & Htypes & Hdev).
  cbn [app] in Hrun.
  assert (Hall : Forall (fun c => is_Some (SENSOR_TYPES !! c))
                   (CONF_MONITORED_CONDITIONS config)).
  { eapply Forall_impl; [exact Hschema|]. intros c. apply SENSOR_TYPES_keys. }
  destruct (available_sensors !! CONF_SENSOR config) as [cls|].
  2:{ split; [exact Hall|]. split; [discriminate|]. split; [discriminate|].
      intros cls p Hcls. discriminate. }
  unfold DHTClient_init.
  destruct (board !! CONF_PIN config) as [p|].
  2:{ split; [exact Hall|]. split; [discriminate|]. split; [discriminate|].
      intros cls' p Hcls Hp. discriminate. }
  rewrite Hrun. split; [exact Hall|].
  split; [discriminate|]. split; [now intros data dev' key_error [= _ _ <-]|].
  intros cls' p' [= <-] [= <-]. eexists _, dev. repeat split; assumption.
Qed.

(** ** The theorems at sample values *)

Lemma celsius_state_witness :
  let dev := device_reading 40 (85 # 4) in
  let self := sample_sensor SENSOR_TEMPERATURE TEMP_CELSIUS in
  let updated := DHTClient_update 0 dev sample_client in
  data updated.1.1 !! SENSOR_TEMPERATURE = Some (85 # 4) /\
  exists self',
    DHTSensor_update sample_celsius_to_fahrenheit 0 dev sample_client self =
      (updated.1.1, self', updated.1.2 ++ [EvLogTemperature (85 # 4) (1 # 2)], Return tt) /\
    state self' = Some (round (float_add (85 # 4) (1 # 2)) 1) /\
    self' = set_state (round (float_add (85 # 4) (1 # 2)) 1) self.
Proof.
  intros dev self updated. split; [reflexivity|].
  apply (celsius_state sample_celsius_to_fahrenheit 0 dev sample_client self updated.1.1 updated.1.2 (Some tt) (85 # 4)).
  - reflexivity.
  - reflexivity.
  - reflexivity.
  - reflexivity.
  - split; [discriminate|reflexivity].
Defined.

Lemma fahrenheit_state_witness :
  let dev := device_reading 40 (85 # 4) in
  let self := sample_sensor SENSOR_TEMPERATURE TEMP_FAHRENHEIT in
  let updated := DHTClient_update 0 dev sample_client in
  (exists self',
     DHTSensor_update sample_celsius_to_fahrenheit 0 dev sample_client self =
       (updated.1.1, self', updated.1.2 ++ [EvLogTemperature (85 # 4) (1 # 2)], Return tt) /\
     state self' = Some (round (sample_celsius_to_fahrenheit (85 # 4)) 1)) /\
  (forall offset : Q,
     state (DHTSensor_update sample_celsius_to_fahrenheit 0 dev sample_client
              (with_temperature_offset offset self)).1.1.2 =
     Some (round (sample_celsius_to_fahrenheit (85 # 4)) 1)).
Proof.
  intros dev self updated.
  apply (fahrenheit_state sample_celsius_to_fahrenheit 0 dev sample_client self updated.1.1 updated.1.2 (Some tt) (85 # 4)).
  - reflexivity.
  - reflexivity.
  - reflexivity.
  - reflexivity.
  - split; [discriminate|reflexivity].
Defined.

Lemma humidity_state_witness :
  let dev := device_reading (325 # 8) 21 in
  let self := sample_sensor SENSOR_HUMIDITY PERCENTAGE in
  let updated := DHTClient_update 0 dev sample_client in
  data updated.1.1 !! SENSOR_HUMIDITY = Some (325 # 8) /\
  exists self',
    DHTSensor_update sample_celsius_to_fahrenheit 0 dev sample_client self =
      (updated.1.1, self', updated.1.2 ++ [EvLogHumidity (325 # 8) (-2)], Return tt) /\
    state self' = Some (round (float_add (325 # 8) (-2)) 1) /\
    self' = set_state (round (float_add (325 # 8) (-2)) 1) self.
Proof.
  intros dev self updated. split; [reflexivity|].
  apply (humidity_state sample_celsius_to_fahrenheit 0 dev sample_client self updated.1.1 updated.1.2 (Some tt) (325 # 8)).
  - reflexivity.
  - reflexivity.
  - reflexivity.
  - split; discriminate.
Defined.

Lemma out_of_range_state_unchanged_witness :
  let dev := device_reading 40 85 in
  let self := sample_sensor SENSOR_TEMPERATURE TEMP_CELSIUS in
  let updated := DHTClient_update 0 dev sample_client in
  data updated.1.1 !! SENSOR_TEMPERATURE = Some 85 /\
  exists log,
    DHTSensor_update sample_celsius_to_fahrenheit 0 dev sample_client self =
      (updated.1.1, self, updated.1.2 ++ log, Return tt) /\
    state (DHTSensor_update sample_celsius_to_fahrenheit 0 dev sample_client self).1.1.2 = Some 7.
Proof.
  intros dev self updated. split; [reflexivity|].
  apply (out_of_range_state_unchanged sample_celsius_to_fahrenheit 0 dev sample_client self
           updated.1.1 updated.1.2 (Some tt) 85).
  - reflexivity.
  - left. split; [reflexivity|]. split; [reflexivity|].
    intros [_ Hlt]. discriminate Hlt.
Defined.

Lemma falsy_reading_not_stored_witness :
  let self := set_data (<[SENSOR_TEMPERATURE := 21]> ∅) sample_client in
  let self' := (DHTClient_update_body (device_reading 40 0) self).1.1 in
  data self' !! SENSOR_TEMPERATURE = Some 21 /\
  (data self' !! SENSOR_TEMPERATURE <> data self !! SENSOR_TEMPERATURE ->
   exists v, raw_reading (device_reading 40 0) SENSOR_TEMPERATURE = Return (Some v) /\
             truthy_float v = true /\ data self' !! SENSOR_TEMPERATURE = Some v) /\
  (forall v, raw_reading (device_reading 40 0) SENSOR_TEMPERATURE = Return (Some v) ->
             v == 0 -> data self' !! SENSOR_TEMPERATURE = data self !! SENSOR_TEMPERATURE) /\
  (dev_open (device_reading 40 0) = Return tt ->
   read_error (device_reading 40 0) = None ->
   (DHTClient_update_body (device_reading 40 0) self).1.2 =
     [EvOpen (sensor self) (pin self); EvReadHumidity; EvReadTemperature; EvExit]).
Proof.
  intros self self'. split; [reflexivity|].
  apply (falsy_reading_not_stored (device_reading 40 0) self SENSOR_TEMPERATURE).
  left. reflexivity.
Defined.


Lemma read_errors_swallowed_witness :
  (DHTClient_update_body (device_refusing OSError) sample_client =
     (sample_client, [EvOpen DHT22 4], Raise OSError) /\
   forall now,
     throttle_passes MIN_TIME_BETWEEN_UPDATES (throttle_last_run sample_client) now = true ->
     (DHTClient_update now (device_refusing OSError) sample_client).1.2 = [EvOpen DHT22 4] /\
     (DHTClient_update now (device_refusing OSError) sample_client).2 = Raise OSError) /\
  (let '(self', evs, r) :=
     DHTClient_update_body (device_failing RuntimeError) sample_client in
   r = dev_exit (device_failing RuntimeError) /\
   List.last evs (EvOpen (sensor sample_client) (pin sample_client)) = EvExit /\
   releases evs = 1%nat /\
   (dev_exit (device_failing RuntimeError) = Return tt ->
    r = Return tt /\
    forall now,
      returned (DHTClient_update now (device_failing RuntimeError) sample_client).2 = true) /\
   (forall e, dev_exit (device_failing RuntimeError) = Raise e ->
      r = Raise e /\
      forall now,
        throttle_passes MIN_TIME_BETWEEN_UPDATES (throttle_last_run sample_client) now = true ->
        (DHTClient_update now (device_failing RuntimeError) sample_client).2 = Raise e) /\
   (forall e, read_error (device_failing RuntimeError) = Some e ->
      self' = sample_client /\
      (is_RuntimeError e = true ->
       In (EvLog DEBUG "Unexpected value from DHT sensor: %s" [name sample_client]) evs) /\
      (is_RuntimeError e = false ->
       In (EvLog EXCEPTION "Error updating DHT sensor: %s" [name sample_client]) evs))).
Proof.
  split.
  - apply (proj1 (read_errors_swallowed (device_refusing OSError) sample_client) OSError).
    reflexivity.
  - apply (proj2 (read_errors_swallowed (device_failing RuntimeError) sample_client)).
    reflexivity.
Defined.

Lemma accepted_config_sensors_witness :
  let config :=
    default (Build_Config "" "" [] "" 0 0)
      (PLATFORM_SCHEMA SENSOR_TYPES (sample_raw_config "DHT22")) in
  PLATFORM_SCHEMA SENSOR_TYPES (sample_raw_config "DHT22") = Some config /\
  let '(types', evs, r) := setup_platform TEMP_CELSIUS sample_board SENSOR_TYPES config in
  Forall (fun c => is_Some (SENSOR_TYPES !! c)) (CONF_MONITORED_CONDITIONS config) /\
  r <> Raise KeyError /\
  (forall data dev key_error, r = Return (Added data dev key_error) -> key_error = false) /\
  (forall cls p,
     available_sensors !! CONF_SENSOR config = Some cls ->
     sample_board !! CONF_PIN config = Some p ->
     exists data dev,
       r = Return (Added data dev false) /\
       DHTClient_init sample_board cls (CONF_PIN config) (CONF_NAME config) = Return data /\
       type <$> dev = CONF_MONITORED_CONDITIONS config /\
       Forall (constructed types' (CONF_NAME config)
                 (CONF_TEMPERATURE_OFFSET config) (CONF_HUMIDITY_OFFSET config)) dev).
Proof.
  intros config. split; [reflexivity|].
  apply (accepted_config_sensors None (sample_raw_config "DHT22") config
           TEMP_CELSIUS sample_board).
  reflexivity.
Defined.

End DHTSpec.

(** * Properties of the TP-Link component *)

Module TPLinkSpec.
Import Py TPLink.

(** ** Unloading *)

(** The forward-unload calls that [async_unload_entry] makes: one for each
    platform whose stored list is not empty. *)
Lemma unload_run E h d (vl vs : value) :
  data h !! DOMAIN = Some d ->
  d !! CONF_LIGHT = Some vl ->
  d !! CONF_SWITCH = Some vs ->
  let remove_lights := truthy_value vl && forward_unload E "light" in
  let remove_switches := truthy_value vs && forward_unload E "switch" in
  async_unload_entry E h =
    (if remove_lights || remove_switches
     then {| data := <[DOMAIN := ∅]> (data h) |} else h,
     (if truthy_value vl then [EvForwardUnload "light" (forward_unload E "light")] else [])
     ++ (if truthy_value vs then [EvForwardUnload "switch" (forward_unload E "switch")] else []),
     Return (remove_lights || remove_switches)).
Proof.
  intros Hd Hl Hs.
  cbv [async_unload_entry mbind M_bind bindM domain_getitem domain_state getitem
       forward_entry_unload mret M_ret ret set_domain_state domain_clear].
  rewrite Hd. cbv beta iota. rewrite Hl. cbv beta iota.
  destruct (truthy_value vl); cbv beta iota; rewrite Hd; cbv beta iota;
    rewrite Hs; cbv beta iota;
    destruct (truthy_value vs); cbv beta iota;
    destruct (forward_unload E "light"), (forward_unload E "switch");
    cbn [andb orb app]; cbv beta iota; rewrite ?Hd; reflexivity.
Qed.

(** C8. [async_unload_entry] forwards the unload to each platform whose
    stored device list is not empty, lights first, and to no other; it
    returns [True] if and only if a forward-unload it made reported success,
    that is when the host unloads a platform that has devices, and it empties
    the stored domain state in exactly that case; otherwise, in particular
    when both device lists are empty and no unload is forwarded, it returns
    [False] and the store is what it was. *)
Theorem unload_iff_platform_unloaded E h d (vl vs : value) :
  data h !! DOMAIN = Some d ->
  d !! CONF_LIGHT = Some vl ->
  d !! CONF_SWITCH = Some vs ->
  exists h' evs ok,
    async_unload_entry E h = (h', evs, Return ok) /\
    evs =
      (if truthy_value vl then [EvForwardUnload "light" (forward_unload E "light")] else [])
      ++ (if truthy_value vs
          then [EvForwardUnload "switch" (forward_unload E "switch")] else []) /\
    ok = (truthy_value vl && forward_unload E "light"
          || truthy_value vs && forward_unload E "switch") /\
    (ok = true <-> exists platform, In (EvForwardUnload platform true) evs) /\
    (ok = true -> data h' = <[DOMAIN := ∅]> (data h)) /\
    (ok = false -> h' = h /\ data h' !! DOMAIN = Some d /\ d <> ∅) /\
    (truthy_value vl = false -> truthy_value vs = false -> ok = false /\ evs = []).
Proof.
  intros Hd Hl Hs.
  rewrite (unload_run E h d vl vs Hd Hl Hs). cbv zeta.
  eexists _, _, _. split; [reflexivity|].
  split; [reflexivity|]. split; [reflexivity|].
  split; [|split; [|split]].
  - destruct (truthy_value vl), (truthy_value vs),
      (forward_unload E "light") eqn:El, (forward_unload E "switch") eqn:Es;
      cbn;
      (split;
       [ intros H;
         first [ discriminate H
               | exists "light"%string; cbn; tauto
               | exists "switch"%string; cbn; tauto ]
       | intros [platform Hin];
         first [ reflexivity | exfalso; cbn in Hin; intuition discriminate ] ]).
  - now intros ->.
  - intros ->. split; [reflexivity|]. split; [exact Hd|].
    intros ->. rewrite lookup_empty in Hl. discriminate.
  - intros -> ->. split; reflexivity.
Qed.

(** ** Rules for triples *)

Lemma triple_ret {A} (a : A) (P X : Hass -> Prop) :
  triple P (mret a) (fun _ => P) X.
Proof. intros h Hh. exact Hh. Qed.

Lemma triple_bind {A B} (P : Hass -> Prop) (m : M A) (R : A -> Hass -> Prop)
    (k : A -> M B) (S : B -> Hass -> Prop) (X : Hass -> Prop) :
  triple P m R X -> (forall a, triple (R a) (k a) S X) -> triple P (m ≫= k) S X.
Proof.
  intros Hm Hk h Hh. specialize (Hm h Hh).
  cbv [mbind M_bind bindM].
  destruct (m h) as [[h1 evs1] [a|e]]; [|exact Hm].
  specialize (Hk a h1 Hm).
  destruct (k a h1) as [[h2 evs2] r]. exact Hk.
Qed.

Lemma triple_weaken {A} (P P' : Hass -> Prop) (m : M A)
    (R R' : A -> Hass -> Prop) (X X' : Hass -> Prop) :
  triple P' m R' X' ->
  (forall h, P h -> P' h) -> (forall a h, R' a h -> R a h) -> (forall h, X' h -> X h) ->
  triple P m R X.
Proof.
  intros Hm HP HR HX h Hh. specialize (Hm h (HP h Hh)).
  destruct (m h) as [[h' evs] [a|e]]; auto.
Qed.

Lemma keeps_bind {A B} (P : Hass -> Prop) (m : M A) (k : A -> M B) :
  keeps P m -> (forall a, keeps P (k a)) -> keeps P (m ≫= k).
Proof. intros Hm Hk. eapply triple_bind; [exact Hm|exact Hk]. Qed.

Lemma keeps_or_l {A} (P Q : Hass -> Prop) (m : M A) :
  keeps P m -> triple P m (fun _ => P) (fun h => P h \/ Q h).
Proof. intros Hm. eapply triple_weaken; [exact Hm|..]; cbv beta; auto. Qed.

Lemma keeps_or_r {A} (P Q : Hass -> Prop) (m : M A) :
  keeps Q m -> triple Q m (fun _ => Q) (fun h => P h \/ Q h).
Proof. intros Hm. eapply triple_weaken; [exact Hm|..]; cbv beta; auto. Qed.

Lemma keeps_ret {A} (P : Hass -> Prop) (a : A) : keeps P (mret a : M A).
Proof. apply triple_ret. Qed.

Lemma keeps_emit (P : Hass -> Prop) ev : keeps P (emit ev).
Proof. intros h Hh. exact Hh. Qed.

Lemma keeps_config_getitem (P : Hass -> Prop) config_data key :
  keeps P (config_getitem config_data key).
Proof.
  intros h Hh. unfold config_getitem, getitem.
  now destruct (config_data !! key).
Qed.

Lemma keeps_discover (P : Hass -> Prop) E static_devices :
  keeps P (discover_devices E static_devices).
Proof. intros h Hh. exact Hh. Qed.

Lemma keeps_when (P : Hass -> Prop) (b : bool) (m : M unit) :
  keeps P m -> keeps P (when b m).
Proof. intros Hm. destruct b; [exact Hm|apply triple_ret]. Qed.

(** ** The attempt counter *)

Lemma add_attempt_set_domain_state (d : gmap string value) h :
  add_attempt {| data := <[DOMAIN := d]> (data h) |} = d !! "add_attempt".
Proof. unfold add_attempt. cbn. now rewrite lookup_insert_eq. Qed.

(** Assigning another key of the domain state keeps the counter. *)
Lemma keeps_setitem (x : option value) (key : string) (v : value) :
  key <> "add_attempt"%string ->
  keeps (fun h => add_attempt h = x) (domain_setitem key v).
Proof.
  intros Hkey h Hh.
  cbv [domain_setitem bindM domain_state getitem set_domain_state].
  destruct (data h !! DOMAIN) as [d|] eqn:Hd; [|exact Hh].
  rewrite add_attempt_set_domain_state, lookup_insert_ne by exact Hkey.
  unfold add_attempt in Hh. rewrite Hd in Hh. exact Hh.
Qed.

Lemma keeps_extend (x : option value) (key : string) (l more : list SmartDevice) :
  key <> "add_attempt"%string ->
  keeps (fun h => add_attempt h = x) (extend key l more).
Proof.
  intros Hkey h Hh. unfold extend.
  pose proof (keeps_setitem x key (VList (l ++ more)) Hkey h Hh) as H.
  cbv [bindM ret].
  destruct (domain_setitem key (VList (l ++ more)) h) as [[h' evs] [[]|e]]; exact H.
Qed.

(** Line 58: the counter is [v] afterwards, unless the assignment raises
    for want of a domain state, and then nothing has changed. *)
Lemma setitem_add_attempt (P : Hass -> Prop) (v : value) :
  triple P (domain_setitem "add_attempt" v) (fun _ h => add_attempt h = Some v) P.
Proof.
  intros h Hh.
  cbv [domain_setitem bindM domain_state getitem set_domain_state].
  destruct (data h !! DOMAIN) as [d|] eqn:Hd; [|exact Hh].
  now rewrite add_attempt_set_domain_state, lookup_insert_eq.
Qed.

Ltac keeps_step :=
  lazymatch goal with
  | |- keeps _ (mret _) => apply keeps_ret
  | |- keeps _ (emit _) => apply keeps_emit
  | |- keeps _ (config_getitem _ _) => apply keeps_config_getitem
  | |- keeps _ (discover_devices _ _) => apply keeps_discover
  | |- keeps _ (domain_setitem _ _) => apply keeps_setitem; discriminate
  | |- keeps _ (extend _ _ _) => apply keeps_extend; discriminate
  | |- keeps _ (when _ _) => apply keeps_when
  | |- keeps _ (_ ≫= _) => apply keeps_bind; [|intros ?]
  end.

(** [async_setup_entry] leaves the counter at 0 when it returns; when it
    raises, the counter is what it was, or 0. *)
Lemma setup_entry_add_attempt E config_entry (x : option value) :
  triple (fun h => add_attempt h = x)
    (async_setup_entry E config_entry)
    (fun _ h => add_attempt h = Some zero)
    (fun h => add_attempt h = x \/ add_attempt h = Some zero).
Proof.
  unfold async_setup_entry.
  eapply triple_bind; [apply keeps_or_l; keeps_step|intros ?; cbv beta].
  eapply triple_bind; [apply keeps_or_l; keeps_step|intros ?; cbv beta].
  eapply triple_bind.
  { apply keeps_or_l. destruct (entry_data config_entry); repeat keeps_step. }
  intros [[static_devices lights0] switches0]. cbv beta.
  eapply triple_bind with (R := fun _ h => add_attempt h = Some zero).
  { eapply triple_weaken; [apply (setitem_add_attempt (fun h => add_attempt h = x))|..];
      cbv beta; auto. }
  intros ?. cbv beta. apply keeps_or_r.
  apply keeps_bind.
  { destruct (entry_data config_entry); repeat keeps_step. }
  intros discover. apply keeps_bind.
  { destruct discover; repeat keeps_step. }
  intros [lights1 switches1]. repeat keeps_step.
Qed.

(** [async_setup] starts the domain state afresh. *)
Lemma setup_store config h :
  async_setup config h =
    ({| data := <[DOMAIN := <[ATTR_CONFIG := from_option VDict VNone (config !! DOMAIN)]> ∅]>
                  (data h) |},
     if bool_decide (is_Some (config !! DOMAIN))
     then [EvFlowInit DOMAIN SOURCE_IMPORT] else [],
     Return true).
Proof.
  cbv [async_setup mbind M_bind bindM set_domain_state domain_setitem domain_state
       getitem data when emit mret M_ret ret].
  rewrite lookup_insert_eq. cbv beta iota.
  rewrite insert_insert_eq.
  now destruct (bool_decide (is_Some (config !! DOMAIN))).
Qed.

(** [async_unload_entry] leaves the store as it was or empties the domain
    state. *)
Lemma unload_store E h :
  (async_unload_entry E h).1.1 = h \/
  data (async_unload_entry E h).1.1 !! DOMAIN = Some ∅.
Proof.
  destruct (data h !! DOMAIN) as [d|] eqn:Hd.
  2:{ left. cbv [async_unload_entry mbind M_bind bindM domain_getitem domain_state getitem].
      now rewrite Hd. }
  destruct (d !! CONF_LIGHT) as [vl|] eqn:Hl.
  2:{ left. cbv [async_unload_entry mbind M_bind bindM domain_getitem domain_state getitem].
      rewrite Hd. cbv beta iota. now rewrite Hl. }
  destruct (d !! CONF_SWITCH) as [vs|] eqn:Hs.
  2:{ left. cbv [async_unload_entry mbind M_bind bindM domain_getitem domain_state getitem
                 forward_entry_unload mret M_ret ret].
      rewrite Hd. cbv beta iota. rewrite Hl. cbv beta iota.
      destruct (truthy_value vl); cbv beta iota; rewrite Hd; cbv beta iota;
        now rewrite Hs. }
  rewrite (unload_run E h d vl vs Hd Hl Hs). cbv zeta.
  destruct (_ || _); [right|left; reflexivity].
  cbn. now rewrite lookup_insert_eq.
Qed.

Lemma cleared_add_attempt h : cleared h -> add_attempt h = None.
Proof.
  unfold add_attempt. intros [-> | [conf ->]]; cbn; [apply lookup_empty|].
  rewrite lookup_insert_ne by discriminate. apply lookup_empty.
Qed.

(** One operation: the counter is what it was, or it is 0, or the domain
    state has been cleared. *)
Lemma step_add_attempt o h :
  add_attempt (after o h) = add_attempt h \/
  add_attempt (after o h) = Some zero \/
  cleared (after o h).
Proof.
  unfold after. destruct o as [config|E config_entry|E]; cbn [run].
  - right; right. rewrite setup_store. cbn [fst]. right.
    eexists. cbn. now rewrite lookup_insert_eq.
  - pose proof (setup_entry_add_attempt E config_entry (add_attempt h) h eq_refl) as H.
    destruct (async_setup_entry E config_entry h) as [[h' evs] [ok|e]]; cbn [fst]; tauto.
  - destruct (unload_store E h) as [-> | Hempty]; [now left|].
    right; right. left. exact Hempty.
Qed.

Lemma reachable_add_attempt h :
  reachable h -> add_attempt h = None \/ add_attempt h = Some zero.
Proof.
  induction 1 as [h Hstart|h o _ IH].
  - left. unfold add_attempt. now rewrite Hstart.
  - destruct (step_add_attempt o h) as [-> | [Hzero | Hcleared]];
      [exact IH|now right|left; now apply cleared_add_attempt].
Qed.

(** ** [async_setup_entry] returns *)

Lemma returns_bind {A B} (m : M A) (k : A -> M B) :
  returns m -> (forall a, returns (k a)) -> returns (m ≫= k).
Proof. intros Hm Hk. eapply triple_bind; [exact Hm|exact Hk]. Qed.

Lemma returns_const {A} (evs : list host_event) (a : A) :
  returns (fun h => (h, evs, Return a)).
Proof. intros h Hh. exact Hh. Qed.

Lemma returns_setitem (key : string) (v : value) : returns (domain_setitem key v).
Proof.
  intros h [d Hd].
  cbv [domain_setitem bindM domain_state getitem set_domain_state].
  rewrite Hd. unfold has_domain_state. cbn. rewrite lookup_insert_eq. eauto.
Qed.

Lemma returns_extend (key : string) (l more : list SmartDevice) :
  returns (extend key l more).
Proof.
  intros h Hh. unfold extend.
  pose proof (returns_setitem key (VList (l ++ more)) h Hh) as H.
  cbv [bindM ret].
  destruct (domain_setitem key (VList (l ++ more)) h) as [[h' evs] [[]|e]]; exact H.
Qed.

Lemma returns_config_getitem (config_data : gmap string scalar) (key : string) :
  is_Some (config_data !! key) -> returns (config_getitem config_data key).
Proof.
  intros [x Hx] h Hh. unfold config_getitem, getitem. now rewrite Hx.
Qed.

Lemma returns_discover E static_devices : returns (discover_devices E static_devices).
Proof. intros h Hh. exact Hh. Qed.

Lemma returns_when (b : bool) (m : M unit) : returns m -> returns (when b m).
Proof. intros Hm. destruct b; [exact Hm|apply (returns_const [] tt)]. Qed.

Ltac returns_step :=
  lazymatch goal with
  | |- returns (mret ?a) => apply (returns_const [] a)
  | |- returns (emit ?ev) => apply (returns_const [ev] tt)
  | |- returns (discover_devices _ _) => apply returns_discover
  | |- returns (config_getitem _ _) => apply returns_config_getitem; assumption
  | |- returns (domain_setitem _ _) => apply returns_setitem
  | |- returns (extend _ _ _) => apply returns_extend
  | |- returns (when _ _) => apply returns_when
  | |- returns (_ ≫= _) => apply returns_bind; [|intros ?]
  | |- returns (match ?x with _ => _ end) => destruct x
  | |- triple has_domain_state ?m (fun _ => has_domain_state) (fun _ => False) =>
      change (returns m)
  end.

Lemma setup_entry_returns E config_entry h :
  has_domain_state h -> entry_complete config_entry ->
  exists h' evs, async_setup_entry E config_entry h = (h', evs, Return true).
Proof.
  intros Hh Hentry.
  assert (Hret : triple has_domain_state (async_setup_entry E config_entry)
                   (fun ok _ => ok = true) (fun _ => False)).
  { unfold async_setup_entry, entry_complete in *.
    eapply triple_bind; [apply returns_setitem|intros ?; cbv beta].
    eapply triple_bind; [apply returns_setitem|intros ?; cbv beta].
    eapply triple_bind with (R := fun _ => has_domain_state).
    { destruct (entry_data config_entry) as [config_data|];
        [destruct Hentry as (? & ? & ?)|]; repeat returns_step. }
    intros [[static_devices lights0] switches0].
    eapply triple_bind; [apply returns_setitem|intros ?; cbv beta].
    eapply triple_bind with (R := fun _ => has_domain_state).
    { destruct (entry_data config_entry) as [config_data|];
        [destruct Hentry as (? & ? & ?)|]; repeat returns_step. }
    intros discover.
    eapply triple_bind with (R := fun _ => has_domain_state);
      [repeat returns_step|].
    intros [lights1 switches1].
    eapply triple_bind with (R := fun _ => has_domain_state);
      [repeat returns_step|intros ?].
    eapply triple_bind with (R := fun _ => has_domain_state);
      [repeat returns_step|intros ?].
    intros h0 _. reflexivity. }
  specialize (Hret h Hh).
  destruct (async_setup_entry E config_entry h) as [[h' evs] [ok|e]]; [|destruct Hret].
  subst ok. eauto.
Qed.

(** ** The device lists after [async_setup_entry] *)

Lemma keeps_lists_setitem (key : string) (v : value) :
  (key <> CONF_LIGHT /\ key <> CONF_SWITCH) \/ (exists l, v = VList l) ->
  keeps holds_lists (domain_setitem key v).
Proof.
  intros Hkey h (d & ls & ss & Hd & Hl & Hs).
  cbv [domain_setitem bindM domain_state getitem set_domain_state]. rewrite Hd.
  unfold holds_lists. cbn. rewrite lookup_insert_eq.
  destruct (decide (key = CONF_LIGHT)) as [->|Hnl].
  - destruct Hkey as [[Hn _]|[l ->]]; [now destruct Hn|].
    exists (<[CONF_LIGHT := VList l]> d), l, ss.
    rewrite lookup_insert_eq, lookup_insert_ne by discriminate. auto.
  - destruct (decide (key = CONF_SWITCH)) as [->|Hns].
    + destruct Hkey as [[_ Hn]|[l ->]]; [now destruct Hn|].
      exists (<[CONF_SWITCH := VList l]> d), ls, l.
      rewrite lookup_insert_eq, lookup_insert_ne by discriminate. auto.
    + exists (<[key := v]> d), ls, ss.
      rewrite !lookup_insert_ne by congruence. auto.
Qed.

Lemma keeps_lists_extend (key : string) (l more : list SmartDevice) :
  keeps holds_lists (extend key l more).
Proof.
  intros h Hh. unfold extend.
  assert (H := keeps_lists_setitem key (VList (l ++ more)) (or_intror (ex_intro _ _ eq_refl)) h Hh).
  cbv [bindM ret].
  destruct (domain_setitem key (VList (l ++ more)) h) as [[h' evs] [[]|e]]; exact H.
Qed.

Ltac keeps_lists_step :=
  lazymatch goal with
  | |- keeps _ (mret _) => apply keeps_ret
  | |- keeps _ (emit _) => apply keeps_emit
  | |- keeps _ (config_getitem _ _) => apply keeps_config_getitem
  | |- keeps _ (discover_devices _ _) => apply keeps_discover
  | |- keeps _ (domain_setitem _ _) =>
      apply keeps_lists_setitem; left; split; discriminate
  | |- keeps _ (extend _ _ _) => apply keeps_lists_extend
  | |- keeps _ (when _ _) => apply keeps_when
  | |- keeps _ (_ ≫= _) => apply keeps_bind; [|intros ?]
  | |- keeps _ (match ?x with _ => _ end) => destruct x
  end.

(** When [async_setup_entry] returns, the two lists are in the domain
    state. *)
Lemma setup_entry_lists E config_entry h h' evs ok :
  async_setup_entry E config_entry h = (h', evs, Return ok) -> holds_lists h'.
Proof.
  intros Hrun.
  assert (Hlists : triple (fun _ => True) (async_setup_entry E config_entry)
                     (fun _ => holds_lists) (fun _ => True)).
  { unfold async_setup_entry.
    eapply triple_bind with (R := fun _ => holds_lights).
    { intros h0 _.
      cbv [domain_setitem bindM domain_state getitem set_domain_state].
      destruct (data h0 !! DOMAIN) as [d|]; [|exact I].
      exists (<[CONF_LIGHT := VList []]> d), []. cbn.
      now rewrite !lookup_insert_eq. }
    intros ?. eapply triple_bind with (R := fun _ => holds_lists).
    { intros h0 (d & ls & Hd & Hl).
      cbv [domain_setitem bindM domain_state getitem set_domain_state]. rewrite Hd.
      exists (<[CONF_SWITCH := VList []]> d), ls, []. cbn.
      rewrite !lookup_insert_eq, lookup_insert_ne by discriminate. auto. }
    intros ?.
    eapply triple_weaken with (P' := holds_lists) (R' := fun _ => holds_lists)
      (X' := holds_lists); [|auto..].
    lazymatch goal with
    | |- triple holds_lists ?m _ _ => change (keeps holds_lists m)
    end.
    apply keeps_bind; [repeat keeps_lists_step|].
    intros [[static_devices lights0] switches0].
    repeat keeps_lists_step. }
  specialize (Hlists h I). now rewrite Hrun in Hlists.
Qed.

(** So an unload that follows a set-up does not raise. *)
Lemma unload_after_setup_entry E config_entry E' h h' evs ok :
  async_setup_entry E config_entry h = (h', evs, Return ok) ->
  returned (async_unload_entry E' h').2 = true.
Proof.
  intros Hrun.
  destruct (setup_entry_lists _ _ _ _ _ _ Hrun) as (d & ls & ss & Hd & Hl & Hs).
  now rewrite (unload_run E' h' d _ _ Hd Hl Hs).
Qed.

(** ** No operation reads the counter *)

Lemma forget_eq h1 h2 :
  forget h1 = forget h2 ->
  (forall k, k <> DOMAIN -> data h1 !! k = data h2 !! k) /\
  delete "add_attempt"%string <$> data h1 !! DOMAIN =
  delete "add_attempt"%string <$> data h2 !! DOMAIN.
Proof.
  unfold forget. intros [= H]. split.
  - intros k Hk.
    assert (Hl := f_equal (fun m => m !! k) H). cbv beta in Hl.
    now rewrite !lookup_alter_ne in Hl by congruence.
  - assert (Hl := f_equal (fun m => m !! DOMAIN) H). cbv beta in Hl.
    now rewrite !lookup_alter_eq in Hl.
Qed.

Lemma forget_set_domain_state h1 h2 (d1 d2 : gmap string value) :
  forget h1 = forget h2 ->
  delete "add_attempt"%string d1 = delete "add_attempt"%string d2 ->
  forget {| data := <[DOMAIN := d1]> (data h1) |} =
  forget {| data := <[DOMAIN := d2]> (data h2) |}.
Proof.
  intros Hf Hd. apply forget_eq in Hf as [Hother _].
  unfold forget. cbn. f_equal. apply map_eq. intros k.
  destruct (decide (k = DOMAIN)) as [->|Hk].
  - rewrite !lookup_alter_eq, !lookup_insert_eq. cbn. now rewrite Hd.
  - rewrite !lookup_alter_ne, !lookup_insert_ne by congruence. now apply Hother.
Qed.

Lemma blind_const {A} (evs : list host_event) (r : result A) :
  blind (fun h => (h, evs, r)).
Proof. intros h1 h2 Hf. cbn. auto. Qed.

Lemma blind_bind {A B} (m : M A) (k : A -> M B) :
  blind m -> (forall a, blind (k a)) -> blind (m ≫= k).
Proof.
  intros Hm Hk h1 h2 Hf. specialize (Hm h1 h2 Hf).
  cbv [mbind M_bind bindM].
  destruct (m h1) as [[h1' evs1] r1], (m h2) as [[h2' evs2] r2].
  cbn in Hm. destruct Hm as (-> & -> & Hf').
  destruct r2 as [a|e]; [|cbn; auto].
  specialize (Hk a h1' h2' Hf').
  destruct (k a h1') as [[h1'' evs1'] r1'], (k a h2') as [[h2'' evs2'] r2'].
  cbn in *. destruct Hk as (-> & -> & Hf''). auto.
Qed.

Lemma blind_set_after_state (f : gmap string value -> gmap string value) :
  (forall d1 d2,
     delete "add_attempt"%string d1 = delete "add_attempt"%string d2 ->
     delete "add_attempt"%string (f d1) = delete "add_attempt"%string (f d2)) ->
  blind (bindM domain_state (fun d => set_domain_state (f d))).
Proof.
  intros Hcompat h1 h2 Hf.
  destruct (forget_eq h1 h2 Hf) as [_ Hd].
  cbv [bindM domain_state getitem set_domain_state].
  destruct (data h1 !! DOMAIN) as [d1|], (data h2 !! DOMAIN) as [d2|];
    try discriminate Hd; cbn; [|auto].
  injection Hd as Hd. split; [reflexivity|]. split; [reflexivity|].
  apply forget_set_domain_state; auto.
Qed.

Lemma blind_setitem (key : string) (v : value) : blind (domain_setitem key v).
Proof.
  apply blind_set_after_state. intros d1 d2 Hd.
  destruct (decide ("add_attempt"%string = key)) as [<-|Hkey].
  - now rewrite !delete_insert_eq.
  - rewrite !delete_insert_ne by exact Hkey. now rewrite Hd.
Qed.

Lemma blind_clear : blind domain_clear.
Proof. apply (blind_set_after_state (fun _ => ∅)). reflexivity. Qed.

Lemma blind_set_domain_state (d : gmap string value) : blind (set_domain_state d).
Proof.
  intros h1 h2 Hf. cbn. split; [reflexivity|]. split; [reflexivity|].
  now apply forget_set_domain_state.
Qed.

Lemma blind_getitem (key : string) :
  key <> "add_attempt"%string -> blind (domain_getitem key).
Proof.
  intros Hkey h1 h2 Hf.
  destruct (forget_eq h1 h2 Hf) as [_ Hd].
  cbv [domain_getitem bindM domain_state getitem].
  destruct (data h1 !! DOMAIN) as [d1|], (data h2 !! DOMAIN) as [d2|];
    try discriminate Hd; cbn; [|auto].
  injection Hd as Hd.
  assert (Hl : d1 !! key = d2 !! key).
  { rewrite <- (lookup_delete_ne d1 "add_attempt" key),
            <- (lookup_delete_ne d2 "add_attempt" key) by congruence.
    now rewrite Hd. }
  rewrite Hl. destruct (d2 !! key); cbn; auto.
Qed.

Lemma blind_extend (key : string) (l more : list SmartDevice) :
  blind (extend key l more).
Proof.
  unfold extend. apply (blind_bind (domain_setitem key (VList (l ++ more)))).
  - apply blind_setitem.
  - intros _. apply (blind_const [] (Return (l ++ more))).
Qed.

Lemma blind_discover E static_devices :
  discovery_blind E -> blind (discover_devices E static_devices).
Proof.
  intros HE h1 h2 Hf. cbn. rewrite (HE h1 h2 static_devices Hf). auto.
Qed.

Lemma blind_when (b : bool) (m : M unit) : blind m -> blind (when b m).
Proof. intros Hm. destruct b; [exact Hm|apply (blind_const [] (Return tt))]. Qed.

Ltac blind_step :=
  lazymatch goal with
  | |- blind (mret ?a) => apply (blind_const [] (Return a))
  | |- blind (emit ?ev) => apply (blind_const [ev] (Return tt))
  | |- blind (config_getitem ?c ?k) => apply (blind_const [] (getitem c k))
  | |- blind (forward_entry_unload ?E ?p) =>
      apply (blind_const [EvForwardUnload p (forward_unload E p)]
               (Return (forward_unload E p)))
  | |- blind (discover_devices _ _) => apply blind_discover; assumption
  | |- blind (set_domain_state _) => apply blind_set_domain_state
  | |- blind (domain_setitem _ _) => apply blind_setitem
  | |- blind (domain_getitem _) => apply blind_getitem; discriminate
  | |- blind domain_clear => apply blind_clear
  | |- blind (extend _ _ _) => apply blind_extend
  | |- blind (when _ _) => apply blind_when
  | |- blind (_ ≫= _) => apply blind_bind; [|intros ?]
  | |- blind (match ?x with _ => _ end) => destruct x
  | |- blind (let _ := _ in _) => cbv zeta
  end.

Lemma run_blind o : operation_blind o -> blind (run o).
Proof.
  destruct o as [config|E config_entry|E]; cbn [run operation_blind]; intros HE.
  - unfold async_setup. repeat blind_step.
  - unfold async_setup_entry. repeat blind_step.
  - unfold async_unload_entry. repeat blind_step.
Qed.

(** C9. [async_setup_entry] sets the counter [add_attempt] to 0, and no
    operation of the module gives it another value or reads it: in every
    store that the set-up and unload operations can reach the counter is 0
    if it exists; [async_setup_entry] returns on such a store once the
    domain state exists, and leaves the counter at 0; from a store where the
    counter is 0 an operation leaves it 0 unless it clears the whole domain
    state; and what an operation returns, the events it causes and the rest
    of the store it leaves do not depend on the counter. *)
Theorem add_attempt_stays_zero h :
  reachable h ->
  (add_attempt h = None \/ add_attempt h = Some zero) /\
  (forall E config_entry,
     has_domain_state h -> entry_complete config_entry ->
     exists h' evs,
       async_setup_entry E config_entry h = (h', evs, Return true) /\
       add_attempt h' = Some zero) /\
  (forall E config_entry h' evs ok,
     async_setup_entry E config_entry h = (h', evs, Return ok) ->
     add_attempt h' = Some zero) /\
  (forall o, add_attempt h = Some zero ->
     add_attempt (after o h) = Some zero \/ cleared (after o h)) /\
  (forall o h2, operation_blind o -> forget h = forget h2 ->
     (run o h).1.2 = (run o h2).1.2 /\ (run o h).2 = (run o h2).2 /\
     forget (after o h) = forget (after o h2)).
Proof.
  intros Hreach.
  assert (Hset : forall E config_entry h' evs ok,
            async_setup_entry E config_entry h = (h', evs, Return ok) ->
            add_attempt h' = Some zero).
  { intros E config_entry h' evs ok Hrun.
    pose proof (setup_entry_add_attempt E config_entry (add_attempt h) h eq_refl) as H.
    now rewrite Hrun in H. }
  split; [exact (reachable_add_attempt h Hreach)|]. split; [|split; [exact Hset|split]].
  - intros E config_entry Hh Hentry.
    destruct (setup_entry_returns E config_entry h Hh Hentry) as (h' & evs & Hrun).
    exists h', evs. split; [exact Hrun|]. exact (Hset _ _ _ _ _ Hrun).
  - intros o Hzero.
    destruct (step_add_attempt o h) as [Hsame | [H | H]]; [left|now left|now right].
    now rewrite Hsame.
  - intros o h2 Ho Hf. exact (run_blind o Ho h h2 Hf).
Qed.

(** ** The theorems at sample values *)

Lemma unload_iff_platform_unloaded_witness :
  let d := default ∅ (data sample_hass !! DOMAIN) in
  data sample_hass !! DOMAIN = Some d /\
  exists h' evs ok,
    async_unload_entry sample_host sample_hass = (h', evs, Return ok) /\
    evs =
      (if truthy_value (VList [{| host := "10.0.0.2" |}])
       then [EvForwardUnload "light" (forward_unload sample_host "light")] else [])
      ++ (if truthy_value (VList [])
          then [EvForwardUnload "switch" (forward_unload sample_host "switch")] else []) /\
    ok = (truthy_value (VList [{| host := "10.0.0.2" |}]) && forward_unload sample_host "light"
          || truthy_value (VList []) && forward_unload sample_host "switch") /\
    (ok = true <-> exists platform, In (EvForwardUnload platform true) evs) /\
    (ok = true -> data h' = <[DOMAIN := ∅]> (data sample_hass)) /\
    (ok = false -> h' = sample_hass /\ data h' !! DOMAIN = Some d /\ d <> ∅) /\
    (truthy_value (VList [{| host := "10.0.0.2" |}]) = false ->
     truthy_value (VList []) = false -> ok = false /\ evs = []).
Proof.
  intros d. split; [reflexivity|].
  apply (unload_iff_platform_unloaded sample_host sample_hass d
           (VList [{| host := "10.0.0.2" |}]) (VList [])).
  - reflexivity.
  - reflexivity.
  - reflexivity.
Defined.

Lemma add_attempt_stays_zero_witness :
  add_attempt sample_hass = Some zero /\
  (forall o, add_attempt sample_hass = Some zero ->
     add_attempt (after o sample_hass) = Some zero \/ cleared (after o sample_hass)).
Proof.
  split; [reflexivity|].
  apply (add_attempt_stays_zero sample_hass).
  unfold sample_hass. apply reachable_step. apply reachable_step.
  apply reachable_start. reflexivity.
Defined.

End TPLinkSpec.

(** * More properties of the DHT platform *)

Module DHTMore.
Import Py DHT DHTSpec.

Local Open Scope Q_scope.

(** ** The pin *)

Lemma upper_ascii_facts (c : ascii) :
  is_space (upper_ascii c) = is_space c /\
  is_digit (upper_ascii c) = is_digit c /\
  Ascii.eqb (upper_ascii c) "_" = Ascii.eqb c "_" /\
  Ascii.eqb (upper_ascii c) "+" = Ascii.eqb c "+" /\
  Ascii.eqb (upper_ascii c) "-" = Ascii.eqb c "-" /\
  upper_ascii (upper_ascii c) = upper_ascii c /\
  (int_char c = true -> upper_ascii c = c).
Proof.
  destruct c as [[] [] [] [] [] [] [] []];
    (repeat split; try reflexivity; intros H; discriminate H).
Qed.

Lemma upper_idempotent (s : string) : upper (upper s) = upper s.
Proof.
  induction s as [|c s IH]; [reflexivity|]. cbn.
  rewrite IH. f_equal. exact (proj1 (proj2 (proj2 (proj2 (proj2 (proj2 (upper_ascii_facts c))))))).
Qed.

Lemma upper_lstrip (s : string) : lstrip (upper s) = upper (lstrip s).
Proof.
  induction s as [|c s IH]; [reflexivity|]. cbn.
  rewrite (proj1 (upper_ascii_facts c)). now destruct (is_space c).
Qed.

Lemma upper_rev_app (a b : string) :
  upper (String.rev_app a b) = String.rev_app (upper a) (upper b).
Proof.
  revert b. induction a as [|c a IH]; intros b; [reflexivity|]. cbn. now rewrite IH.
Qed.

Lemma upper_strip (s : string) : strip (upper s) = upper (strip s).
Proof.
  unfold strip, String.rev.
  now rewrite upper_lstrip, <- (upper_rev_app _ ""), upper_lstrip, <- (upper_rev_app _ "").
Qed.

Lemma upper_int_digits (b : bool) (s : string) :
  int_digits b (upper s) = int_digits b s.
Proof.
  revert b. induction s as [|c s IH]; intros b; [reflexivity|]. cbn.
  destruct (upper_ascii_facts c) as (_ & -> & -> & _).
  now rewrite !IH.
Qed.

Lemma upper_count_digits (s : string) : count_digits (upper s) = count_digits s.
Proof.
  induction s as [|c s IH]; [reflexivity|]. cbn.
  destruct (upper_ascii_facts c) as (_ & -> & _).
  now rewrite IH.
Qed.

Lemma upper_int_literal (s : string) : int_literal (upper s) = int_literal s.
Proof. unfold int_literal. now rewrite upper_int_digits, upper_count_digits. Qed.

Lemma upper_int_parses (s : string) : int_parses (upper s) = int_parses s.
Proof.
  unfold int_parses. rewrite upper_strip.
  destruct (strip s) as [|c r]; [reflexivity|]. cbn [upper].
  destruct (upper_ascii_facts c) as (_ & _ & _ & -> & -> & _).
  change (String (upper_ascii c) (upper r)) with (upper (String c r)).
  now rewrite !upper_int_literal.
Qed.

Lemma all_chars_rev_app (P : ascii -> bool) (a b : string) :
  all_chars P (String.rev_app a b) = all_chars P a && all_chars P b.
Proof.
  revert b. induction a as [|c a IH]; intros b; [reflexivity|]. cbn.
  rewrite IH. cbn. now destruct (P c), (all_chars P a), (all_chars P b).
Qed.

Lemma all_chars_rev (P : ascii -> bool) (s : string) :
  all_chars P (String.rev s) = all_chars P s.
Proof. unfold String.rev. rewrite all_chars_rev_app. cbn. apply andb_true_r. Qed.

Lemma all_chars_lstrip (s : string) :
  all_chars int_char (lstrip s) = all_chars int_char s.
Proof.
  induction s as [|c s IH]; [reflexivity|]. cbn.
  destruct (is_space c) eqn:E; [|reflexivity].
  rewrite IH. unfold int_char. now rewrite E.
Qed.

Lemma all_chars_strip (s : string) :
  all_chars int_char (strip s) = all_chars int_char s.
Proof.
  unfold strip.
  now rewrite all_chars_rev, all_chars_lstrip, all_chars_rev, all_chars_lstrip.
Qed.

Lemma int_digits_chars (b : bool) (s : string) :
  int_digits b s = true -> all_chars int_char s = true.
Proof.
  revert b. induction s as [|c s IH]; intros b; [reflexivity|]. cbn.
  unfold int_char at 1.
  destruct (is_digit c).
  - intros H. rewrite (IH _ H). now rewrite orb_true_r.
  - destruct (Ascii.eqb c "_"); [|discriminate].
    intros H. apply andb_true_iff in H as [_ H]. rewrite (IH _ H).
    now rewrite !orb_true_r.
Qed.

Lemma int_parses_chars (s : string) :
  int_parses s = true -> all_chars int_char s = true.
Proof.
  intros H. rewrite <- all_chars_strip. unfold int_parses, int_literal in H.
  destruct (strip s) as [|c r]; [discriminate|].
  destruct (Ascii.eqb c "+" || Ascii.eqb c "-") eqn:Hsign;
    apply andb_true_iff in H as [H _].
  - cbn. rewrite (int_digits_chars _ _ H). unfold int_char.
    apply orb_true_iff in Hsign as [-> | ->]; now rewrite ?orb_true_r.
  - exact (int_digits_chars _ _ H).
Qed.

Lemma all_chars_upper (s : string) :
  all_chars int_char s = true -> upper s = s.
Proof.
  induction s as [|c s IH]; [reflexivity|]. cbn.
  intros H. apply andb_true_iff in H as [Hc Hs].
  rewrite (IH Hs). f_equal.
  exact (proj2 (proj2 (proj2 (proj2 (proj2 (proj2 (upper_ascii_facts c)))))) Hc).
Qed.

Lemma rev_app_snoc (y acc : string) (c : ascii) :
  String.rev_app (y ++ String c "") acc = String c (String.rev_app y acc).
Proof.
  revert acc. induction y as [|a y IH]; intros acc; [reflexivity|]. cbn. apply IH.
Qed.

Lemma rev_app_append_r (a b c : string) :
  String.rev_app a (b ++ c) = (String.rev_app a b ++ c)%string.
Proof.
  revert b. induction a as [|x a IH]; intros b; [reflexivity|]. cbn.
  exact (IH (String x b)).
Qed.

Lemma rev_app_append (a b : string) :
  String.rev_app a b = (String.rev a ++ b)%string.
Proof. exact (rev_app_append_r a "" b). Qed.

Local Arguments is_space : simpl never.
Local Arguments is_digit : simpl never.

Lemma lstrip_snoc (x : string) (c : ascii) :
  is_space c = false ->
  lstrip (x ++ String c "") = (lstrip x ++ String c "")%string.
Proof.
  intros Hc. induction x as [|a x IH].
  - change (lstrip (String c "") = String c ""). cbn [lstrip]. now rewrite Hc.
  - change (lstrip (String a (x ++ String c "")) = (lstrip (String a x) ++ String c "")%string).
    cbn [lstrip]. destruct (is_space a); [exact IH|reflexivity].
Qed.

(** A string that starts with a character other than white space keeps
    that start when stripped. *)
Lemma strip_head (c : ascii) (r : string) :
  is_space c = false ->
  strip (String c r) = String c (String.rev (lstrip (String.rev r))).
Proof.
  intros Hc. unfold strip. cbn [lstrip]. rewrite Hc.
  unfold String.rev at 2. cbn [String.rev_app].
  rewrite rev_app_append, (lstrip_snoc _ _ Hc).
  unfold String.rev at 1. now rewrite rev_app_snoc.
Qed.

Lemma int_parses_D (v : string) : int_parses (String "D" v) = false.
Proof. unfold int_parses. now rewrite strip_head. Qed.

(** X1. The pin that the schema hands on is in normal form: validating it
    again changes nothing, it has no lower-case ASCII letter, and [int()]
    does not accept it (a number has got its [D] in front). *)
Theorem pin_normal_form (value : string) :
  validate_pin_input (validate_pin_input value) = validate_pin_input value /\
  upper (validate_pin_input value) = validate_pin_input value /\
  int_parses (validate_pin_input value) = false.
Proof.
  unfold validate_pin_input.
  destruct (int_parses value) eqn:Hint.
  - change ("D" ++ value)%string with (String "D" value).
    rewrite int_parses_D. cbn [upper].
    rewrite (all_chars_upper _ (int_parses_chars _ Hint)).
    repeat split; reflexivity.
  - rewrite upper_int_parses, Hint, upper_idempotent. repeat split; reflexivity.
Qed.

Lemma rev_app_rev_app (a b c : string) :
  String.rev_app (String.rev_app a b) c = String.rev_app b (a ++ c).
Proof.
  revert b. induction a as [|x a IH]; intros b; [reflexivity|].
  change (String.rev_app (String.rev_app a (String x b)) c =
          String.rev_app b (String x (a ++ c))).
  now rewrite IH.
Qed.

Lemma append_empty_r (s : string) : (s ++ "")%string = s.
Proof.
  induction s as [|c s IH]; [reflexivity|].
  change (String c (s ++ "") = String c s). now rewrite IH.
Qed.

Lemma rev_involutive (s : string) : String.rev (String.rev s) = s.
Proof.
  unfold String.rev. rewrite rev_app_rev_app.
  change (String.rev_app "" (s ++ "")) with (s ++ "")%string. apply append_empty_r.
Qed.

Lemma digit_facts (c : ascii) :
  is_digit c = true ->
  is_space c = false /\ Ascii.eqb c "+" = false /\ Ascii.eqb c "-" = false.
Proof.
  destruct c as [[] [] [] [] [] [] [] []];
    (repeat split; try reflexivity; discriminate).
Qed.

Lemma digits_lstrip (s : string) : all_chars is_digit s = true -> lstrip s = s.
Proof.
  destruct s as [|c s]; [reflexivity|]. cbn [all_chars lstrip].
  intros H. apply andb_true_iff in H as [Hc _].
  now rewrite (proj1 (digit_facts c Hc)).
Qed.

Lemma digits_strip (s : string) : all_chars is_digit s = true -> strip s = s.
Proof.
  intros H. unfold strip. rewrite (digits_lstrip s H).
  rewrite digits_lstrip by now rewrite all_chars_rev.
  apply rev_involutive.
Qed.

Lemma digits_int_digits (b : bool) (s : string) :
  all_chars is_digit s = true -> s <> EmptyString -> int_digits b s = true.
Proof.
  revert b. induction s as [|c s IH]; intros b H Hne; [now destruct Hne|].
  cbn [all_chars] in H. apply andb_true_iff in H as [Hc Hs].
  cbn [int_digits]. rewrite Hc.
  destruct s as [|c' s']; [reflexivity|]. now apply IH.
Qed.

Lemma count_digits_length (s : string) : (count_digits s <= String.length s)%nat.
Proof.
  induction s as [|c s IH]; [apply Nat.le_refl|]. cbn.
  destruct (is_digit c); [now apply le_n_S|now apply Nat.le_le_succ_r].
Qed.

(** X2. A pin written as a number, one or more ASCII digits and no more of
    them than [int()] converts, is prefixed with [D]. *)
Theorem digit_pin_prefixed (value : string) :
  value <> EmptyString ->
  all_chars is_digit value = true ->
  (String.length value <= int_max_str_digits)%nat ->
  validate_pin_input value = String "D" value.
Proof.
  intros Hne Hdigits Hlength. unfold validate_pin_input, int_parses.
  rewrite (digits_strip _ Hdigits).
  assert (Hliteral : int_literal value = true).
  { unfold int_literal. rewrite (digits_int_digits false _ Hdigits Hne).
    apply Nat.leb_le. exact (Nat.le_trans _ _ _ (count_digits_length value) Hlength). }
  destruct value as [|c r]; [now destruct Hne|].
  assert (Hc : is_digit c = true).
  { cbn [all_chars] in Hdigits. now apply andb_true_iff in Hdigits as [Hc _]. }
  destruct (digit_facts c Hc) as (_ & -> & ->). cbn [orb].
  now rewrite Hliteral.
Qed.

Lemma digit_pin_prefixed_witness : validate_pin_input "17" = "D17"%string.
Proof.
  apply (digit_pin_prefixed "17"); [discriminate|reflexivity|].
  apply Nat.leb_le. reflexivity.
Defined.

(** ** Platform set-up on any configuration *)

Lemma contains_SENSOR_TYPES u (c : string) :
  contains (SENSOR_TYPES_with u) c = contains SENSOR_TYPES c.
Proof.
  unfold contains, SENSOR_TYPES. apply bool_decide_ext.
  split; apply SENSOR_TYPES_keys.
Qed.

Lemma known_prefix_SENSOR_TYPES u (l : list string) :
  known_prefix (SENSOR_TYPES_with u) l = known_prefix SENSOR_TYPES l.
Proof.
  induction l as [|c l IH]; [reflexivity|]. cbn [known_prefix].
  now rewrite contains_SENSOR_TYPES, IH.
Qed.

Lemma forallb_SENSOR_TYPES u (l : list string) :
  forallb (contains (SENSOR_TYPES_with u)) l = forallb (contains SENSOR_TYPES) l.
Proof.
  induction l as [|c l IH]; [reflexivity|]. cbn [forallb].
  now rewrite contains_SENSOR_TYPES, IH.
Qed.

(** The loop builds the sensors of the known prefix and stops with
    [KeyError] at the first unknown condition. *)
Lemma append_sensors_prefix types name t_offset h_offset
    (conditions : list string) (dev : list DHTSensor) :
  exists new,
    append_sensors types name t_offset h_offset conditions dev =
      (dev ++ new,
       if forallb (contains types) conditions then Return tt else Raise KeyError) /\
    type <$> new = known_prefix types conditions /\
    Forall (constructed types name t_offset h_offset) new.
Proof.
  revert dev. induction conditions as [|variable rest IH]; intros dev.
  - exists []. rewrite app_nil_r. repeat split. constructor.
  - cbn [append_sensors forallb known_prefix].
    destruct (types !! variable) as [entry|] eqn:Hentry.
    + rewrite (contains_Some _ _ _ Hentry). cbn [andb].
      destruct (IH (dev ++ [{| client_name := name; _name := entry.1;
                               temp_unit := entry.2; type := variable;
                               temperature_offset := t_offset;
                               humidity_offset := h_offset;
                               _state := None;
                               _unit_of_measurement := entry.2 |}]))
        as (new & Hrun & Htypes & Hnew).
      eexists (_ :: new). split; [|split].
      * unfold DHTSensor_init, getitem, mbind, result_bind, bind.
        rewrite Hentry. cbn.
        rewrite Hrun, <- app_assoc. reflexivity.
      * cbn. now rewrite Htypes.
      * constructor; [|exact Hnew].
        repeat split. exists entry. cbn. now rewrite Hentry.
    + rewrite (contains_None _ _ Hentry). cbn [andb].
      exists []. rewrite app_nil_r.
      unfold getitem, mbind, result_bind, bind. rewrite Hentry.
      repeat split. constructor.
Qed.

(** What [setup_platform] does once the sensor kind and the pin are
    found, for any list of conditions. *)
Lemma setup_platform_run unit (board : gmap string N) u0 config cls p :
  available_sensors !! CONF_SENSOR config = Some cls ->
  board !! CONF_PIN config = Some p ->
  exists dev,
    setup_platform unit board (SENSOR_TYPES_with u0) config =
      (SENSOR_TYPES_with (Some unit), [],
       Return (Added {| sensor := cls; pin := p; data := ∅; name := CONF_NAME config;
                        throttle_last_run := None |} dev
                 (negb (forallb (contains SENSOR_TYPES) (CONF_MONITORED_CONDITIONS config))))) /\
    type <$> dev = known_prefix SENSOR_TYPES (CONF_MONITORED_CONDITIONS config) /\
    Forall (constructed (SENSOR_TYPES_with (Some unit)) (CONF_NAME config)
              (CONF_TEMPERATURE_OFFSET config) (CONF_HUMIDITY_OFFSET config)) dev.
Proof.
  intros Hcls Hpin. unfold setup_platform.
  change (SENSOR_TYPES_with u0 !! SENSOR_TEMPERATURE)
    with (Some ("Temperature"%string, u0)).
  cbn [fst]. rewrite store_unit, Hcls. unfold DHTClient_init. rewrite Hpin.
  destruct (append_sensors_prefix (SENSOR_TYPES_with (Some unit)) (CONF_NAME config)
              (CONF_TEMPERATURE_OFFSET config) (CONF_HUMIDITY_OFFSET config)
              (CONF_MONITORED_CONDITIONS config) []) as (dev & Hrun & Htypes & Hdev).
  cbn [app] in Hrun. rewrite Hrun.
  rewrite forallb_SENSOR_TYPES. rewrite known_prefix_SENSOR_TYPES in Htypes.
  exists dev. split; [|split; assumption].
  now destruct (forallb (contains SENSOR_TYPES) (CONF_MONITORED_CONDITIONS config)).
Qed.

(** X3. Whatever strings the monitored conditions are, keys of
    [SENSOR_TYPES] or not, a platform with a known sensor kind and an
    existing pin raises nothing:
    it registers one sensor for each condition before the first one that
    is not a key of [SENSOR_TYPES], in order, drops the rest silently, and
    returns [None]. *)
Theorem unknown_condition_truncates unit (board : gmap string N) u0 config cls p :
  available_sensors !! CONF_SENSOR config = Some cls ->
  board !! CONF_PIN config = Some p ->
  exists data dev key_error,
    setup_platform unit board (SENSOR_TYPES_with u0) config =
      (SENSOR_TYPES_with (Some unit), [], Return (Added data dev key_error)) /\
    type <$> dev = known_prefix SENSOR_TYPES (CONF_MONITORED_CONDITIONS config) /\
    (key_error = false <->
     Forall (fun c => is_Some (SENSOR_TYPES !! c)) (CONF_MONITORED_CONDITIONS config)).
Proof.
  intros Hcls Hpin.
  destruct (setup_platform_run unit board u0 config cls p Hcls Hpin)
    as (dev & Hrun & Htypes & _).
  eexists _, dev, _. split; [exact Hrun|]. split; [exact Htypes|].
  rewrite negb_false_iff, forallb_forall, Forall_forall.
  split; intros H c Hc.
  - apply list_elem_of_In in Hc. specialize (H c Hc).
    unfold contains in H. now apply bool_decide_eq_true in H.
  - apply list_elem_of_In in Hc. specialize (H c Hc).
    unfold contains. now apply bool_decide_eq_true.
Qed.

Lemma unknown_condition_truncates_witness :
  exists data dev key_error,
    setup_platform TEMP_CELSIUS sample_board SENSOR_TYPES
      {| CONF_SENSOR := "DHT11"; CONF_PIN := "D4";
         CONF_MONITORED_CONDITIONS := ["humidity"; "pressure"; "temperature"]%string;
         CONF_NAME := "Attic"; CONF_TEMPERATURE_OFFSET := 0;
         CONF_HUMIDITY_OFFSET := 0 |} =
      (SENSOR_TYPES_with (Some TEMP_CELSIUS), [], Return (Added data dev key_error)) /\
    type <$> dev = ["humidity"%string] /\
    (key_error = false <->
     Forall (fun c => is_Some (SENSOR_TYPES !! c))
       ["humidity"; "pressure"; "temperature"]%string).
Proof.
  apply (unknown_condition_truncates TEMP_CELSIUS sample_board None
           {| CONF_SENSOR := "DHT11"; CONF_PIN := "D4";
              CONF_MONITORED_CONDITIONS := ["humidity"; "pressure"; "temperature"]%string;
              CONF_NAME := "Attic"; CONF_TEMPERATURE_OFFSET := 0;
              CONF_HUMIDITY_OFFSET := 0 |} DHT11 4%N); reflexivity.
Defined.

(** X4. [setup_platform] stores the host's temperature unit in
    [SENSOR_TYPES] before it looks at the configuration: the unit is stored
    also when the platform returns [False] or raises for an unknown pin,
    and whatever unit an earlier set-up had stored is replaced. *)
Theorem unit_stored_on_every_path unit (board : gmap string N) u0 config :
  (setup_platform unit board (SENSOR_TYPES_with u0) config).1.1 =
    SENSOR_TYPES_with (Some unit).
Proof.
  unfold setup_platform.
  change (SENSOR_TYPES_with u0 !! SENSOR_TEMPERATURE)
    with (Some ("Temperature"%string, u0)).
  cbn [fst]. rewrite store_unit.
  destruct (available_sensors !! CONF_SENSOR config); [|reflexivity].
  destruct (DHTClient_init _ _ _ _); [|reflexivity].
  destruct (append_sensors _ _ _ _ _ _) as [dev [[]|[]]]; reflexivity.
Qed.

Lemma schema_offsets types raw config :
  PLATFORM_SCHEMA types raw = Some config ->
  le_le (-100) (CONF_TEMPERATURE_OFFSET config) 100 = true /\
  le_le (-100) (CONF_HUMIDITY_OFFSET config) 100 = true.
Proof.
  unfold PLATFORM_SCHEMA, vol_Range. intros H.
  destruct (raw_sensor raw); [|discriminate]. cbn in H.
  destruct (raw_pin raw); [|discriminate]. cbn in H.
  destruct (vol_In types _) as [conditions|]; [|discriminate]. cbn in H.
  destruct (le_le (-100) (default 0 (raw_temperature_offset raw)) 100) eqn:Ht;
    [|discriminate]. cbn in H.
  destruct (le_le (-100) (default 0 (raw_humidity_offset raw)) 100) eqn:Hh;
    [|discriminate]. cbn in H.
  injection H as <-. cbn. auto.
Qed.

(** X5. Every sensor that [setup_platform] registers for a configuration
    accepted by the schema carries offsets between -100 and 100, and starts
    without a state. *)
Theorem registered_offsets_bounded types raw config unit (board : gmap string N) u0
    types' evs data dev key_error :
  PLATFORM_SCHEMA types raw = Some config ->
  setup_platform unit board (SENSOR_TYPES_with u0) config =
    (types', evs, Return (Added data dev key_error)) ->
  Forall (fun s =>
            (-100 <= temperature_offset s /\ temperature_offset s <= 100) /\
            (-100 <= humidity_offset s /\ humidity_offset s <= 100) /\
            state s = None) dev.
Proof.
  intros Hschema Hrun.
  destruct (schema_offsets _ _ _ Hschema) as [Ht Hh].
  apply le_le_true in Ht, Hh.
  unfold setup_platform in Hrun.
  change (SENSOR_TYPES_with u0 !! SENSOR_TEMPERATURE)
    with (Some ("Temperature"%string, u0)) in Hrun.
  cbn [fst] in Hrun.
  destruct (available_sensors !! CONF_SENSOR config); [|discriminate].
  destruct (DHTClient_init _ _ _ _); [|discriminate].
  destruct (append_sensors_prefix
              (<[SENSOR_TEMPERATURE:=("Temperature"%string, Some unit)]> (SENSOR_TYPES_with u0))
              (CONF_NAME config)
              (CONF_TEMPERATURE_OFFSET config) (CONF_HUMIDITY_OFFSET config)
              (CONF_MONITORED_CONDITIONS config) []) as (new & Happ & _ & Hnew).
  cbn [app] in Happ. rewrite Happ in Hrun.
  assert (Hdev : dev = new).
  { destruct (forallb _ _); now injection Hrun as _ _ _ <-. }
  subst dev. eapply Forall_impl; [exact Hnew|].
  intros x (_ & -> & -> & Hstate & _). auto.
Qed.

Lemma registered_offsets_bounded_witness :
  let config :=
    default (Build_Config "" "" [] "" 0 0)
      (PLATFORM_SCHEMA SENSOR_TYPES (sample_raw_config "DHT22")) in
  let r := setup_platform TEMP_CELSIUS sample_board SENSOR_TYPES config in
  Forall (fun s =>
            (-100 <= temperature_offset s /\ temperature_offset s <= 100) /\
            (-100 <= humidity_offset s /\ humidity_offset s <= 100) /\
            state s = None)
    match r.2 with
    | Return (Added _ dev _) => dev
    | _ => []
    end.
Proof.
  intros config r.
  eapply (registered_offsets_bounded SENSOR_TYPES (sample_raw_config "DHT22") config
            TEMP_CELSIUS sample_board None); reflexivity.
Defined.

(** ** The sensor's update in general *)

Section SensorUpdateMore.

Variable celsius_to_fahrenheit : Q -> Q.

Local Abbreviation DHTSensor_refresh := (DHT.DHTSensor_refresh celsius_to_fahrenheit).
Local Abbreviation DHTSensor_update := (DHT.DHTSensor_update celsius_to_fahrenheit).

(** The extraction leaves the sensor alone or gives it a rounded state. *)
Lemma refresh_cases (data : gmap string Q) (self : DHTSensor) :
  (DHTSensor_refresh data self).1 = self \/
  exists v, (DHTSensor_refresh data self).1 = set_state (round v 1) self.
Proof.
  unfold DHT.DHTSensor_refresh.
  destruct (String.eqb (type self) SENSOR_TEMPERATURE && contains data SENSOR_TEMPERATURE).
  - destruct (data !! SENSOR_TEMPERATURE) as [t|]; [|now left].
    destruct (le_lt (-20) t 80); [|now left].
    destruct (bool_decide _); right; eexists; reflexivity.
  - destruct (String.eqb (type self) SENSOR_HUMIDITY && contains data SENSOR_HUMIDITY);
      [|now left].
    destruct (data !! SENSOR_HUMIDITY) as [h|]; [|now left].
    destruct (le_le 0 h 100); [|now left].
    right; eexists; reflexivity.
Qed.

(** X6. An update, whatever the device and the client do, changes nothing
    of a sensor but its state, and the new state, when there is one, is a
    value rounded to one decimal: a state once displayed is never taken
    back to unknown. *)
Theorem update_touches_state_only now dev dht_client self :
  let self' := (DHTSensor_update now dev dht_client self).1.1.2 in
  (self' = self \/ exists v, self' = set_state (round v 1) self) /\
  (is_Some (state self) -> is_Some (state self')).
Proof.
  assert (H : (DHTSensor_update now dev dht_client self).1.1.2 = self \/
              exists v, (DHTSensor_update now dev dht_client self).1.1.2 =
                        set_state (round v 1) self).
  { unfold DHT.DHTSensor_update.
    destruct (DHTClient_update now dev dht_client) as [[c evs] [r|e]]; [|now left].
    pose proof (refresh_cases (data c) self) as Hr.
    destruct (DHTSensor_refresh (data c) self) as [s' log]. exact Hr. }
  cbv zeta. split; [exact H|].
  destruct H as [-> | [v ->]]; [auto|]. intros _. cbn. eauto.
Qed.




End SensorUpdateMore.

(** ** The client's data *)

Lemma truthy_float_nonzero (v : Q) : truthy_float v = true <-> ~ v == 0.
Proof.
  unfold truthy_float. rewrite negb_true_iff. split.
  - intros H Hz. apply Qeq_bool_iff in Hz. congruence.
  - intros H. destruct (Qeq_bool v 0) eqn:E; [|reflexivity].
    destruct H. now apply Qeq_bool_iff.
Qed.

Lemma readings_only_insert (d : gmap string Q) (key : string) (v : Q) :
  key = SENSOR_TEMPERATURE \/ key = SENSOR_HUMIDITY ->
  ~ v == 0 -> readings_only d -> readings_only (<[key := v]> d).
Proof.
  intros Hkey Hv Hd k w. rewrite lookup_insert.
  case_decide as Hk; [|apply Hd].
  intros [= <-]. subst k. auto.
Qed.

Lemma readings_only_body dev self :
  readings_only (data self) -> readings_only (data (DHTClient_update_body dev self).1.1).
Proof.
  intros Hd. rewrite body_data.
  destruct (dev_open dev); [|exact Hd].
  destruct (dev_humidity dev) as [humidity|]; [|exact Hd].
  destruct (dev_temperature dev) as [temperature|]; [|exact Hd].
  cbv zeta.
  assert (H1 : readings_only
                 (if truthy temperature
                  then <[SENSOR_TEMPERATURE := default 0 temperature]> (data self)
                  else data self)).
  { destruct temperature as [t|]; [|exact Hd]. cbn.
    destruct (truthy_float t) eqn:Ht; [|exact Hd].
    apply readings_only_insert; auto. now apply truthy_float_nonzero. }
  destruct humidity as [h|]; [|exact H1]. cbn.
  destruct (truthy_float h) eqn:Hh; [|exact H1].
  apply readings_only_insert; auto. now apply truthy_float_nonzero.
Qed.

(** X10. The data of a client holds nothing but non-zero readings under
    the keys of the two metrics: it is so when the client is created, and
    every update keeps it so, whatever the device answers. *)
Theorem data_holds_readings_only (board : gmap string N) cls (pin name : string)
    self (devs : list Device) :
  DHTClient_init board cls pin name = Return self ->
  readings_only (data (update_many devs self)).
Proof.
  intros Hinit.
  assert (H0 : readings_only (data self)).
  { unfold DHTClient_init in Hinit. destruct (board !! pin); [|discriminate].
    injection Hinit as <-. intros k v Hk. cbn in Hk. now rewrite lookup_empty in Hk. }
  clear Hinit. revert self H0.
  induction devs as [|dev devs IH]; intros self H0; [exact H0|].
  cbn [update_many]. apply IH. now apply readings_only_body.
Qed.

Section Display.

Variable celsius_to_fahrenheit : Q -> Q.

Local Abbreviation DHTSensor_update := (DHT.DHTSensor_update celsius_to_fahrenheit).



End Display.

(** ** The further theorems at sample values *)



Lemma data_holds_readings_only_witness :
  readings_only
    (data (update_many [device_reading 0 21; device_failing OSError; device_reading 40 0]
             {| sensor := DHT22; pin := 4; data := ∅; name := DEFAULT_NAME;
                throttle_last_run := None |})).
Proof.
  apply (data_holds_readings_only sample_board DHT22 "D4" DEFAULT_NAME).
  reflexivity.
Defined.



End DHTMore.

(** * More properties of the TP-Link component *)

Module TPLinkMore.
Import Py TPLink TPLinkSpec.

(** ** Running the entry points *)

(** Unfolds a computation applied to a store and reads the domain state
    back from what has just been stored. *)
Ltac run_store :=
  cbv [async_setup async_setup_entry async_unload_entry
       mbind M_bind bindM mret M_ret ret emit when extend
       domain_getitem domain_setitem domain_clear domain_state set_domain_state
       config_getitem discover_devices forward_entry_unload getitem data];
  repeat first [rewrite lookup_insert_eq | rewrite insert_insert_eq | progress cbv beta iota].

(** What [async_setup_entry] does on a store with a domain state [d], for
    an entry whose data is complete: [found] is what discovery has found,
    the answer of the host to the store as it is at the call. *)
Lemma setup_entry_outcome E config_entry h d :
  data h !! DOMAIN = Some d ->
  entry_complete config_entry ->
  exists d' found,
    let static_devices := static_devices_of E config_entry in
    let l := lights static_devices ++ lights found in
    let s := switches static_devices ++ switches found in
    async_setup_entry E config_entry h =
      ({| data := <[DOMAIN := d']> (data h) |},
       forward_setup_events "light" "Got %s lights: %s" l ++
       forward_setup_events "switch" "Got %s switches: %s" s,
       Return true) /\
    d' !! CONF_LIGHT = Some (VList l) /\
    d' !! CONF_SWITCH = Some (VList s) /\
    d' !! "add_attempt"%string = Some zero /\
    (forall config_data, entry_data config_entry = Some config_data ->
       d' !! CONF_RETRY_DELAY = VScalar <$> config_data !! CONF_RETRY_DELAY /\
       d' !! CONF_RETRY_MAX_ATTEMPTS = VScalar <$> config_data !! CONF_RETRY_MAX_ATTEMPTS) /\
    (forall key, key <> CONF_LIGHT -> key <> CONF_SWITCH -> key <> "add_attempt"%string ->
       (entry_data config_entry = None \/
        (key <> CONF_RETRY_DELAY /\ key <> CONF_RETRY_MAX_ATTEMPTS)) ->
       d' !! key = d !! key) /\
    (discovery_enabled config_entry = false -> found = SmartDevices_new) /\
    found = discovered_devices_of E config_entry h.
Proof.
  intros Hd Hentry.
  unfold discovered_devices_of, domain_before_discovery.
  unfold entry_complete, static_devices_of, discovery_enabled in *.
  cbv [async_setup_entry].
  destruct (entry_data config_entry) as [c|].
  - destruct Hentry as ([rd Hrd] & [rma Hrma] & [disc Hdisc]).
    run_store. fold (data h). rewrite Hd. run_store.
    rewrite Hrd. run_store. rewrite Hrma. run_store. rewrite Hdisc. run_store.
    cbn [from_option].
    destruct (truthy_scalar disc) eqn:Htruthy; run_store; cbn [app].
    + match goal with
      | |- context [async_discover_devices E ?hm ?st] =>
          set (found := async_discover_devices E hm st)
      end.
      eexists _, found. cbv zeta. split.
      { unfold forward_setup_events.
        destruct (bool_decide (lights (get_static_devices E c) ++ lights found = [])),
                 (bool_decide (switches (get_static_devices E c) ++ switches found = []));
          run_store; cbn [app negb]; run_store; cbn [app]; reflexivity. }
      split; [now rewrite lookup_insert_ne, lookup_insert_eq by discriminate|].
      split; [now rewrite lookup_insert_eq|].
      split; [now rewrite !lookup_insert_ne, lookup_insert_eq by discriminate|].
      split.
      { intros ? [= <-]. rewrite Hrd, Hrma. split.
        - now rewrite !lookup_insert_ne, lookup_insert_eq by discriminate.
        - now rewrite !lookup_insert_ne, lookup_insert_eq by discriminate. }
      split; [|split; [discriminate|subst found; reflexivity]].
      intros key H1 H2 H3 [Hnone|[H4 H5]]; [discriminate|].
      now rewrite !lookup_insert_ne by congruence.
    + exists
        (<["add_attempt"%string:=VScalar (SInt 0)]>
           (<[CONF_RETRY_MAX_ATTEMPTS:=VScalar rma]>
              (<[CONF_RETRY_DELAY:=VScalar rd]>
                 (<[CONF_SWITCH:=VList (switches (get_static_devices E c) ++ [])]>
                    (<[CONF_LIGHT:=VList (lights (get_static_devices E c) ++ [])]>
                       (<[CONF_SWITCH:=VList []]> (<[CONF_LIGHT:=VList []]> d))))))),
        SmartDevices_new.
      cbv zeta. cbn [lights switches SmartDevices_new]. rewrite !app_nil_r. split.
      { unfold forward_setup_events.
        destruct (bool_decide (lights (get_static_devices E c) = [])),
                 (bool_decide (switches (get_static_devices E c) = []));
          run_store; cbn [app negb]; run_store; cbn [app]; reflexivity. }
      split; [now rewrite !lookup_insert_ne, lookup_insert_eq by discriminate|].
      split; [now rewrite !lookup_insert_ne, lookup_insert_eq by discriminate|].
      split; [now rewrite lookup_insert_eq|].
      split.
      { intros ? [= <-]. rewrite Hrd, Hrma. split.
        - now rewrite !lookup_insert_ne, lookup_insert_eq by discriminate.
        - now rewrite !lookup_insert_ne, lookup_insert_eq by discriminate. }
      split; [|split; reflexivity].
      intros key H1 H2 H3 [Hnone|[H4 H5]]; [discriminate|].
      now rewrite !lookup_insert_ne by congruence.
  - run_store. fold (data h). rewrite Hd. run_store. cbn [app].
    match goal with
    | |- context [async_discover_devices E ?hm ?st] =>
        set (found := async_discover_devices E hm st)
    end.
    eexists _, found. cbv zeta. cbn [lights switches SmartDevices_new app]. split.
    { unfold forward_setup_events.
      destruct (bool_decide (lights found = [])), (bool_decide (switches found = []));
        run_store; cbn [app negb]; run_store; cbn [app]; reflexivity. }
    split; [now rewrite lookup_insert_ne, lookup_insert_eq by discriminate|].
    split; [now rewrite lookup_insert_eq|].
    split; [now rewrite !lookup_insert_ne, lookup_insert_eq by discriminate|].
    split; [intros ? [=]|].
    split; [|split; [discriminate|subst found; reflexivity]].
    intros key H1 H2 H3 _.
    now rewrite !lookup_insert_ne by congruence.
Qed.

(** ** Locality *)

Lemma local_const {A} (evs : list host_event) (r : result A) :
  local_to_domain (fun h => (h, evs, r)).
Proof. intros h. cbn. auto. Qed.

Lemma local_bind {A B} (m : M A) (k : A -> M B) :
  local_to_domain m -> (forall a, local_to_domain (k a)) -> local_to_domain (m ≫= k).
Proof.
  intros Hm Hk h. specialize (Hm h). cbv [mbind M_bind bindM].
  destruct (m h) as [[h1 evs1] [a|e]]; [|exact Hm].
  specialize (Hk a h1). destruct (k a h1) as [[h2 evs2] r].
  cbn [fst snd] in *. destruct Hm as [Hm1 Hm2], Hk as [Hk1 Hk2]. split.
  - intros key Hkey. now rewrite Hk1, Hm1.
  - auto.
Qed.

Lemma local_set_domain_state (d : gmap string value) :
  local_to_domain (set_domain_state d).
Proof.
  intros h. cbn. split.
  - intros k Hk. now rewrite lookup_insert_ne.
  - intros _. unfold has_domain_state. cbn. rewrite lookup_insert_eq. eauto.
Qed.

Lemma local_set_after_state (f : gmap string value -> gmap string value) :
  local_to_domain (bindM domain_state (fun d => set_domain_state (f d))).
Proof.
  intros h. cbv [bindM domain_state getitem set_domain_state].
  destruct (data h !! DOMAIN) as [d|] eqn:Hd; cbn; [|auto]. split.
  - intros k Hk. now rewrite lookup_insert_ne.
  - intros _. unfold has_domain_state. cbn. rewrite lookup_insert_eq. eauto.
Qed.

Lemma local_getitem (key : string) : local_to_domain (domain_getitem key).
Proof.
  intros h. cbv [domain_getitem bindM domain_state getitem].
  destruct (data h !! DOMAIN) as [d|]; cbn; [|auto].
  destruct (d !! key); cbn; auto.
Qed.

Lemma local_discover E static_devices :
  local_to_domain (discover_devices E static_devices).
Proof. intros h. cbn. auto. Qed.

Lemma local_extend (key : string) (l more : list SmartDevice) :
  local_to_domain (extend key l more).
Proof.
  unfold extend. apply (local_bind (domain_setitem key (VList (l ++ more)))).
  - apply local_set_after_state.
  - intros _. apply (local_const [] (Return (l ++ more))).
Qed.

Lemma local_when (b : bool) (m : M unit) : local_to_domain m -> local_to_domain (when b m).
Proof. intros Hm. destruct b; [exact Hm|apply (local_const [] (Return tt))]. Qed.

Ltac local_step :=
  lazymatch goal with
  | |- local_to_domain (mret ?a) => apply (local_const [] (Return a))
  | |- local_to_domain (emit ?ev) => apply (local_const [ev] (Return tt))
  | |- local_to_domain (config_getitem ?c ?k) => apply (local_const [] (getitem c k))
  | |- local_to_domain (forward_entry_unload ?E ?p) =>
      apply (local_const [EvForwardUnload p (forward_unload E p)]
               (Return (forward_unload E p)))
  | |- local_to_domain (discover_devices _ _) => apply local_discover
  | |- local_to_domain (set_domain_state _) => apply local_set_domain_state
  | |- local_to_domain (domain_setitem _ _) => apply local_set_after_state
  | |- local_to_domain (domain_getitem _) => apply local_getitem
  | |- local_to_domain domain_clear => apply (local_set_after_state (fun _ => ∅))
  | |- local_to_domain (extend _ _ _) => apply local_extend
  | |- local_to_domain (when _ _) => apply local_when
  | |- local_to_domain (_ ≫= _) => apply local_bind; [|intros ?]
  | |- local_to_domain (match ?x with _ => _ end) => destruct x
  | |- local_to_domain (let _ := _ in _) => cbv zeta
  end.

Lemma run_local o : local_to_domain (run o).
Proof.
  destruct o as [config|E config_entry|E]; cbn [run].
  - unfold async_setup. repeat local_step.
  - unfold async_setup_entry. repeat local_step.
  - unfold async_unload_entry. repeat local_step.
Qed.

(** X13. No operation of the module touches what other domains keep in
    [hass.data], whether it returns or raises. *)
Theorem other_domains_untouched o h (k : string) :
  k <> DOMAIN -> data (after o h) !! k = data h !! k.
Proof.
  intros Hk. unfold after.
  destruct (run_local o h) as [Hothers _].
  exact (Hothers k Hk).
Qed.

Lemma other_domains_untouched_witness :
  data (after (UnloadEntry sample_host)
          {| data := <["hue"%string := ∅]> (data sample_hass) |}) !! "hue"%string
  = Some ∅.
Proof.
  rewrite (other_domains_untouched (UnloadEntry sample_host)
             {| data := <["hue"%string := ∅]> (data sample_hass) |} "hue");
    [reflexivity|discriminate].
Defined.

Lemma run_all_has_domain_state ops h :
  has_domain_state h -> has_domain_state (run_all ops h).
Proof.
  revert h. induction ops as [|o ops IH]; intros h Hh; [exact Hh|].
  cbn [run_all]. apply IH. exact (proj2 (run_local o h) Hh).
Qed.

(** X14. Once [async_setup] has run, the domain state never goes missing
    again, whatever operations follow and however they end: so
    [async_setup_entry] on an entry with complete data returns [True]
    there, it does not raise [KeyError]. *)
Theorem setup_entry_returns_after_setup config ops h0 E config_entry :
  entry_complete config_entry ->
  exists h' evs,
    async_setup_entry E config_entry (run_all ops (after (Setup config) h0)) =
      (h', evs, Return true).
Proof.
  intros Hentry. apply setup_entry_returns; [|exact Hentry].
  apply run_all_has_domain_state.
  unfold after. cbn [run]. rewrite setup_store. unfold has_domain_state. cbn.
  rewrite lookup_insert_eq. eauto.
Qed.

Lemma setup_entry_returns_after_setup_witness :
  exists h' evs,
    async_setup_entry sample_host sample_entry
      (run_all [UnloadEntry sample_host; UnloadEntry sample_host;
                SetupEntry sample_host {| entry_data := Some ∅ |}]
         (after (Setup ∅) {| data := ∅ |})) =
      (h', evs, Return true).
Proof.
  apply (setup_entry_returns_after_setup ∅
           [UnloadEntry sample_host; UnloadEntry sample_host;
            SetupEntry sample_host {| entry_data := Some ∅ |}]
           {| data := ∅ |} sample_host sample_entry).
  cbn. repeat split; eexists; reflexivity.
Defined.

(** ** Missing state *)

Lemma setup_entry_without_domain E config_entry h :
  data h !! DOMAIN = None ->
  async_setup_entry E config_entry h = (h, [], Raise KeyError).
Proof.
  intros Hd. cbv [async_setup_entry]. run_store. fold (data h). now rewrite Hd.
Qed.

Lemma unload_without_domain E h :
  data h !! DOMAIN = None -> async_unload_entry E h = (h, [], Raise KeyError).
Proof. intros Hd. run_store. fold (data h). now rewrite Hd. Qed.

(** X15. Without a domain state, as when [async_setup] has not run,
    [async_setup_entry] and [async_unload_entry] raise [KeyError] at their
    first access, having changed nothing and asked nothing of the host. *)
Theorem entry_points_need_domain_state E config_entry h :
  data h !! DOMAIN = None ->
  async_setup_entry E config_entry h = (h, [], Raise KeyError) /\
  async_unload_entry E h = (h, [], Raise KeyError).
Proof.
  intros Hd. split.
  - now apply setup_entry_without_domain.
  - now apply unload_without_domain.
Qed.

Lemma entry_points_need_domain_state_witness :
  async_setup_entry sample_host sample_entry {| data := ∅ |} =
    ({| data := ∅ |}, [], Raise KeyError) /\
  async_unload_entry sample_host {| data := ∅ |} = ({| data := ∅ |}, [], Raise KeyError).
Proof.
  apply (entry_points_need_domain_state sample_host sample_entry {| data := ∅ |}).
  reflexivity.
Defined.

(** An unload on a domain state without the list of lights. *)
Lemma unload_without_lights E h d :
  data h !! DOMAIN = Some d -> d !! CONF_LIGHT = None ->
  async_unload_entry E h = (h, [], Raise KeyError).
Proof.
  intros Hd Hl. run_store. fold (data h). rewrite Hd. run_store. now rewrite Hl.
Qed.

(** An unload that returns [True] has emptied the domain state. *)
Lemma unload_true_empties E h h' evs :
  async_unload_entry E h = (h', evs, Return true) -> data h' !! DOMAIN = Some ∅.
Proof.
  intros Hrun.
  destruct (data h !! DOMAIN) as [d|] eqn:Hd.
  2:{ rewrite (unload_without_domain E h Hd) in Hrun. discriminate. }
  destruct (d !! CONF_LIGHT) as [vl|] eqn:Hl.
  2:{ rewrite (unload_without_lights E h d Hd Hl) in Hrun. discriminate. }
  destruct (d !! CONF_SWITCH) as [vs|] eqn:Hs.
  - rewrite (unload_run E h d vl vs Hd Hl Hs) in Hrun. cbv zeta in Hrun.
    destruct (_ || _); [|discriminate].
    injection Hrun as <- _. cbn. apply lookup_insert_eq.
  - exfalso. revert Hrun. run_store. fold (data h). rewrite Hd. run_store. rewrite Hl.
    run_store. destruct (truthy_value vl); run_store; fold (data h); rewrite Hd;
      run_store; rewrite Hs; discriminate.
Qed.

(** X16. Unloading is not repeatable: after an unload that returned
    [True], another unload raises [KeyError], changes nothing and forwards
    nothing to the host. *)
Theorem second_unload_raises E E' h h' evs :
  async_unload_entry E h = (h', evs, Return true) ->
  async_unload_entry E' h' = (h', [], Raise KeyError).
Proof.
  intros Hrun. apply (unload_without_lights E' h' ∅).
  - exact (unload_true_empties E h h' evs Hrun).
  - apply lookup_empty.
Qed.

Lemma second_unload_raises_witness :
  async_unload_entry sample_host (after (UnloadEntry sample_host) sample_hass) =
    (after (UnloadEntry sample_host) sample_hass, [], Raise KeyError).
Proof.
  apply (second_unload_raises sample_host sample_host sample_hass
           (after (UnloadEntry sample_host) sample_hass)
           [EvForwardUnload "light" true]).
  reflexivity.
Defined.

(** X17. [async_setup] starts the domain state afresh: it always returns
    [True], nothing is left in the domain state but the configuration, so
    the device lists of an earlier set-up are gone, and an unload that
    follows it raises [KeyError] until [async_setup_entry] has run again. *)
Theorem setup_discards_earlier_state config h :
  let h' := after (Setup config) h in
  (async_setup config h).2 = Return true /\
  lookup_domain h' ATTR_CONFIG = Some (from_option VDict VNone (config !! DOMAIN)) /\
  (forall key, key <> ATTR_CONFIG -> lookup_domain h' key = None) /\
  (forall E, async_unload_entry E h' = (h', [], Raise KeyError)).
Proof.
  unfold after. cbn [run]. rewrite setup_store. cbn [fst snd].
  split; [reflexivity|].
  unfold lookup_domain. cbn [data]. rewrite !lookup_insert_eq. cbn.
  split; [apply lookup_insert_eq|]. split.
  - intros key Hkey. rewrite lookup_insert_ne by congruence. apply lookup_empty.
  - intros E. eapply unload_without_lights.
    + cbn. apply lookup_insert_eq.
    + rewrite lookup_insert_ne by discriminate. apply lookup_empty.
Qed.

(** ** What a set-up stores *)

(** X18. On a store with a domain state and for an entry with complete
    data, [async_setup_entry] returns [True] and stores, for lights and for
    switches, the static devices followed by the discovered ones, which are
    what the host's [async_discover_devices] answers to the store as it is
    at the call and to the static devices: the lists start from empty, so
    devices of an earlier set-up do not pile up, and with discovery disabled
    they are the static devices alone. A platform's set-up is forwarded
    exactly when its list is not empty. *)
Theorem setup_entry_stores_devices E config_entry h :
  has_domain_state h -> entry_complete config_entry ->
  let static_devices := static_devices_of E config_entry in
  let found := discovered_devices_of E config_entry h in
  exists h' evs,
    async_setup_entry E config_entry h = (h', evs, Return true) /\
    lookup_domain h' CONF_LIGHT =
      Some (VList (lights static_devices ++ lights found)) /\
    lookup_domain h' CONF_SWITCH =
      Some (VList (switches static_devices ++ switches found)) /\
    (discovery_enabled config_entry = true ->
     exists h_mid,
       found = async_discover_devices E h_mid static_devices /\
       lookup_domain h_mid CONF_LIGHT = Some (VList (lights static_devices)) /\
       lookup_domain h_mid CONF_SWITCH = Some (VList (switches static_devices)) /\
       lookup_domain h_mid "add_attempt" = Some zero /\
       (forall k, k <> DOMAIN -> data h_mid !! k = data h !! k)) /\
    (discovery_enabled config_entry = false -> found = SmartDevices_new) /\
    (In (EvForwardSetup "light") evs <->
     lights static_devices ++ lights found <> []) /\
    (In (EvForwardSetup "switch") evs <->
     switches static_devices ++ switches found <> []).
Proof.
  intros [d Hd] Hentry static_devices found.
  destruct (setup_entry_outcome E config_entry h d Hd Hentry)
    as (d' & found' & Hrun & Hl & Hs & _ & _ & _ & Hfound & Heq).
  cbv zeta in *. fold static_devices in Hrun, Hl, Hs. fold found in Heq. subst found'.
  eexists _, _. split; [exact Hrun|].
  unfold lookup_domain at 1 2. cbn [data]. rewrite lookup_insert_eq. cbn.
  split; [exact Hl|]. split; [exact Hs|].
  split; [|split; [exact Hfound|]].
  - intros Hon. subst found static_devices.
    unfold discovered_devices_of. rewrite Hon, Hd. cbn [default from_option].
    eexists. split; [reflexivity|].
    unfold lookup_domain, domain_before_discovery, static_devices_of, entry_complete in *.
    cbn [data]. rewrite lookup_insert_eq. cbn.
    destruct (entry_data config_entry) as [c|].
    + destruct Hentry as ([rd ->] & [rma ->] & _).
      split; [now rewrite !lookup_insert_ne, lookup_insert_eq by discriminate|].
      split; [now rewrite !lookup_insert_ne, lookup_insert_eq by discriminate|].
      split; [now rewrite lookup_insert_eq|].
      intros k Hk. now rewrite lookup_insert_ne by congruence.
    + split; [now rewrite !lookup_insert_ne, lookup_insert_eq by discriminate|].
      split; [now rewrite !lookup_insert_ne, lookup_insert_eq by discriminate|].
      split; [now rewrite lookup_insert_eq|].
      intros k Hk. now rewrite lookup_insert_ne by congruence.
  - unfold forward_setup_events.
    destruct (lights static_devices ++ lights found) as [|x l],
             (switches static_devices ++ switches found) as [|y s'];
      cbn; split; split; intros H; try congruence; try tauto;
      try (destruct H as [H|[H|H]]; try discriminate H; tauto);
      try (destruct H as [H|[H|[H|[H|H]]]]; try discriminate H; tauto).
Qed.

Lemma setup_entry_stores_devices_witness :
  let static_devices := static_devices_of sample_discovering_host sample_discovery_entry in
  let found := discovered_devices_of sample_discovering_host sample_discovery_entry sample_hass in
  found = {| lights := []; switches := [{| host := "10.0.0.3" |}; {| host := "10.0.0.4" |}] |} /\
  exists h' evs,
    async_setup_entry sample_discovering_host sample_discovery_entry sample_hass =
      (h', evs, Return true) /\
    lookup_domain h' CONF_LIGHT =
      Some (VList (lights static_devices ++ lights found)) /\
    lookup_domain h' CONF_SWITCH =
      Some (VList (switches static_devices ++ switches found)) /\
    (discovery_enabled sample_discovery_entry = true ->
     exists h_mid,
       found = async_discover_devices sample_discovering_host h_mid static_devices /\
       lookup_domain h_mid CONF_LIGHT = Some (VList (lights static_devices)) /\
       lookup_domain h_mid CONF_SWITCH = Some (VList (switches static_devices)) /\
       lookup_domain h_mid "add_attempt" = Some zero /\
       (forall k, k <> DOMAIN -> data h_mid !! k = data sample_hass !! k)) /\
    (discovery_enabled sample_discovery_entry = false -> found = SmartDevices_new) /\
    (In (EvForwardSetup "light") evs <->
     lights static_devices ++ lights found <> []) /\
    (In (EvForwardSetup "switch") evs <->
     switches static_devices ++ switches found <> []).
Proof.
  intros static_devices found. split; [reflexivity|].
  apply (setup_entry_stores_devices sample_discovering_host sample_discovery_entry
           sample_hass).
  - eexists. reflexivity.
  - cbn. repeat split; eexists; reflexivity.
Defined.

(** X19. [async_setup_entry] copies the retry delay and the maximal number
    of attempts from the entry's data into the domain state, and keeps the
    configuration that [async_setup] stored there. *)
Theorem setup_entry_copies_retry_settings E config_entry config_data h :
  has_domain_state h -> entry_complete config_entry ->
  entry_data config_entry = Some config_data ->
  exists h' evs,
    async_setup_entry E config_entry h = (h', evs, Return true) /\
    lookup_domain h' CONF_RETRY_DELAY = VScalar <$> config_data !! CONF_RETRY_DELAY /\
    lookup_domain h' CONF_RETRY_MAX_ATTEMPTS =
      VScalar <$> config_data !! CONF_RETRY_MAX_ATTEMPTS /\
    is_Some (lookup_domain h' CONF_RETRY_DELAY) /\
    lookup_domain h' ATTR_CONFIG = lookup_domain h ATTR_CONFIG.
Proof.
  intros [d Hd] Hentry Hdata.
  destruct (setup_entry_outcome E config_entry h d Hd Hentry)
    as (d' & found & Hrun & _ & _ & _ & Hretry & Hkeep & _).
  cbv zeta in *. destruct (Hretry config_data Hdata) as [Hrd Hrma].
  eexists _, _. split; [exact Hrun|].
  unfold lookup_domain. cbn [data]. rewrite lookup_insert_eq, Hd. cbn.
  split; [exact Hrd|]. split; [exact Hrma|]. split.
  - rewrite Hrd. unfold entry_complete in Hentry. rewrite Hdata in Hentry.
    destruct Hentry as ([rd ->] & _). cbn. eauto.
  - apply Hkeep; try discriminate. right. split; discriminate.
Qed.

Lemma setup_entry_copies_retry_settings_witness :
  exists h' evs,
    async_setup_entry sample_host sample_entry sample_hass = (h', evs, Return true) /\
    lookup_domain h' CONF_RETRY_DELAY = VScalar <$> sample_config_data !! CONF_RETRY_DELAY /\
    lookup_domain h' CONF_RETRY_MAX_ATTEMPTS =
      VScalar <$> sample_config_data !! CONF_RETRY_MAX_ATTEMPTS /\
    is_Some (lookup_domain h' CONF_RETRY_DELAY) /\
    lookup_domain h' ATTR_CONFIG = lookup_domain sample_hass ATTR_CONFIG.
Proof.
  apply (setup_entry_copies_retry_settings sample_host sample_entry
           sample_config_data sample_hass).
  - eexists. reflexivity.
  - cbn. repeat split; eexists; reflexivity.
  - reflexivity.
Defined.

(** ** Set-up and unload together *)



(** X21. A successful unload erases the whole domain state, the
    configuration that [async_setup] stored included, and a set-up that
    follows, which returns [True], does not bring the configuration back. *)
Theorem unload_erases_configuration E h h' evs :
  async_unload_entry E h = (h', evs, Return true) ->
  (forall key, lookup_domain h' key = None) /\
  (forall E' config_entry, entry_complete config_entry ->
     exists h'' evs',
       async_setup_entry E' config_entry h' = (h'', evs', Return true) /\
       lookup_domain h'' ATTR_CONFIG = None).
Proof.
  intros Hrun. pose proof (unload_true_empties E h h' evs Hrun) as Hempty. split.
  - intros key. unfold lookup_domain. rewrite Hempty. cbn. apply lookup_empty.
  - intros E' config_entry Hentry.
    destruct (setup_entry_outcome E' config_entry h' ∅ Hempty Hentry)
      as (d' & found & Hsetup & _ & _ & _ & _ & Hkeep & _).
    cbv zeta in *. eexists _, _. split; [exact Hsetup|].
    unfold lookup_domain. cbn [data]. rewrite lookup_insert_eq. cbn.
    rewrite Hkeep; try discriminate; [apply lookup_empty|].
    right. split; discriminate.
Qed.

Lemma unload_erases_configuration_witness :
  is_Some (lookup_domain sample_hass ATTR_CONFIG) /\
  (forall key, lookup_domain (after (UnloadEntry sample_host) sample_hass) key = None) /\
  (forall E' config_entry, entry_complete config_entry ->
     exists h'' evs',
       async_setup_entry E' config_entry (after (UnloadEntry sample_host) sample_hass) =
         (h'', evs', Return true) /\
       lookup_domain h'' ATTR_CONFIG = None).
Proof.
  split; [eexists; reflexivity|].
  apply (unload_erases_configuration sample_host sample_hass
           (after (UnloadEntry sample_host) sample_hass) [EvForwardUnload "light" true]).
  reflexivity.
Defined.

End TPLinkMore.
